(** * scripts/build.ts: the build script and its watch-mode supervisor

    A shallow embedding of [Builder] (scripts/build.ts): JavaScript strings
    are lists of UTF-16 code units, the closures of [watch] become functions
    over an explicit record of the variables they capture, and every
    observable action (writing to the console, spawning or killing a child
    process, leaving the process) is recorded in a trace of effects. *)

From Stdlib Require Import List Bool Arith ZArith NArith Lia Ascii String.
From Stdlib Require Import DecimalString.
Import ListNotations.

Set Implicit Arguments.

(* ================================================================== *)
(** ** JavaScript strings *)

Module JS.

(** A code unit of a JavaScript string. *)
Definition char := N.

Definition str := list char.

Definition ch (a : ascii) : char := N_of_ascii a.

(** The string literal [s] of the source. *)
Definition lit (s : string) : str := map ch (list_ascii_of_string s).

(** [!s] for a string, [!x] for a value that may be undefined. *)
Definition truthy (s : str) : bool :=
  match s with [] => false | _ :: _ => true end.

Definition truthy_opt (o : option str) : bool :=
  match o with Some s => truthy s | None => false end.

Fixpoint starts_with (p s : str) : bool :=
  match p, s with
  | [], _ => true
  | a :: p', b :: s' => N.eqb a b && starts_with p' s'
  | _ :: _, [] => false
  end.

(** [s.includes(needle)], also [/needle/.test(s)] for a pattern without
    metacharacters. *)
Fixpoint includes (s needle : str) : bool :=
  starts_with needle s ||
  match s with
  | [] => false
  | _ :: s' => includes s' needle
  end.

Definition str_eqb (a b : str) : bool :=
  if list_eq_dec N.eq_dec a b then true else false.

Definition newline : char := 10%N.

(** [s.split("\n")]: the segments between newlines; never empty. *)
Fixpoint split (s : str) : list str :=
  match s with
  | [] => [[]]
  | c :: s' =>
      if N.eqb c newline then [] :: split s'
      else match split s' with
           | [] => [[c]]
           | l :: ls => (c :: l) :: ls
           end
  end.

(** Decimal text of a number, as a template literal prints it. *)
Definition of_nat (n : nat) : str :=
  lit (NilEmpty.string_of_uint (Nat.to_uint n)).

End JS.

Import JS.

(* ================================================================== *)
(** ** Regular expressions, matched by backtracking *)

Module Regex.

(** The fragment of the pattern language the script uses. *)
Inductive regex : Type :=
| Class (p : char -> bool)     (* one code unit of a class *)
| Eps                          (* the empty pattern *)
| Seq (a b : regex)            (* ab *)
| Alt (a b : regex)            (* a|b, a first *)
| Star (a : regex).            (* a*, greedy *)

(** a?, greedy *)
Definition Opt (a : regex) : regex := Alt a Eps.

(** a{0,n}, greedy *)
Fixpoint Upto (n : nat) (a : regex) : regex :=
  match n with
  | O => Eps
  | S n' => Opt (Seq a (Upto n' a))
  end.

(** a{1,n+1}, greedy *)
Definition Rep1 (n : nat) (a : regex) : regex := Seq a (Upto n a).

(** [exec r s k] matches [r] at the start of [s] and hands what is left to
    the continuation [k]; when [k] fails the next alternative of [r] is
    tried, in the order of a backtracking matcher. An iteration of a star
    that consumes nothing is rejected. *)
Fixpoint exec (r : regex) (s : str) (k : str -> option str) : option str :=
  match r with
  | Class p =>
      match s with
      | c :: s' => if p c then k s' else None
      | [] => None
      end
  | Eps => k s
  | Seq a b => exec a s (fun s1 => exec b s1 k)
  | Alt a b =>
      match exec a s k with
      | Some x => Some x
      | None => exec b s k
      end
  | Star a =>
      (fix loop (n : nat) (s : str) {struct n} : option str :=
         match n with
         | O => k s
         | S n' =>
             match exec a s (fun s1 =>
                     if List.length s1 <? List.length s then loop n' s1 else None) with
             | Some x => Some x
             | None => k s
             end
         end) (List.length s) s
  end.

(** The first match of [r] at the start of [s]: what follows the match. *)
Definition match_at (r : regex) (s : str) : option str := exec r s Some.

(** [s.replace(re, empty)] for a global [re]: every match is deleted, scanning
    from the left and resuming after each match; a position where [re] does
    not match (or matches the empty string) keeps its code unit. [skip]
    counts the code units of the current match still to be dropped. *)
Fixpoint delete_from (r : regex) (skip : nat) (s : str) : str :=
  match s with
  | [] => []
  | c :: s' =>
      match skip with
      | S k => delete_from r k s'
      | O =>
          match match_at r s with
          | Some rest =>
              match List.length s - List.length rest with
              | O => c :: delete_from r 0 s'
              | S k => delete_from r k s'
              end
          | None => c :: delete_from r 0 s'
          end
      end
  end.

Definition delete_all (r : regex) (s : str) : str := delete_from r 0 s.

End Regex.

Import Regex.

(* ================================================================== *)
(** ** The ANSI pattern of [watch] *)

Definition in_range (lo hi : ascii) (c : char) : bool :=
  N.leb (ch lo) c && N.leb c (ch hi).

Definition one_of (set : string) (c : char) : bool :=
  existsb (N.eqb c) (lit set).

Definition digit (c : char) : bool := in_range "0" "9" c.

Definition alnum (c : char) : bool :=
  in_range "a" "z" c || in_range "A" "Z" c || digit c.

(** [[\u001B\u009B]] *)
Definition introducer (c : char) : bool := N.eqb c 27 || N.eqb c 155.

(** [[[\]()#;?]] *)
Definition prefix_class (c : char) : bool := one_of "[]()#;?" c.

(** [[-a-zA-Z\d\/#&.:=?%@~_]] *)
Definition param_class (c : char) : bool :=
  alnum c || one_of "-/#&.:=?%@~_" c.

(** [[\dA-PR-TZcf-ntqry=><~]] *)
Definition final_class (c : char) : bool :=
  digit c || in_range "A" "P" c || in_range "R" "T" c || in_range "f" "n" c
  || one_of "Zctqry=><~" c.

Definition semicolon : regex := Class (N.eqb (ch ";")).

(** First alternative, written with spaces between its parts:
    (?: (?: [a-zA-Z\d]* (?: ; [-a-zA-Z\d\/#&.:=?%@~_]* )* )? \u0007 ) *)
Definition bell_form : regex :=
  Seq (Opt (Seq (Star (Class alnum))
                (Star (Seq semicolon (Star (Class param_class))))))
      (Class (N.eqb 7)).

(** Second alternative, written with spaces between its parts:
    (?: (?: \d{1,4} (?: ; \d{0,4} )* )? [\dA-PR-TZcf-ntqry=><~] ) *)
Definition final_form : regex :=
  Seq (Opt (Seq (Rep1 3 (Class digit))
                (Star (Seq semicolon (Upto 4 (Class digit))))))
      (Class final_class).

(** [pattern]: the introducer, [[[\]()#;?]]* and the two alternatives, which
    the source joins with "|". *)
Definition pattern : regex :=
  Seq (Class introducer)
      (Seq (Star (Class prefix_class)) (Alt bell_form final_form)).

(** [line.replace(re, empty)] with [re = new RegExp(pattern, "g")]. *)
Definition strip (line : str) : str := delete_all pattern line.

(* ================================================================== *)
(** ** [onLine]: the line reader *)

(** One "data" event of [onLine]: the calls of [callback], in order, as
    pairs (stripped line, original line), and the new [buffer]. *)
Definition onLine_data (buffer d : str) : list (str * str) * str :=
  let data := buffer ++ d in
  let split := JS.split data in
  let last := List.length split - 1 in
  (map (fun l => (strip l, l)) (firstn last split), nth last split []).

(** The reader over a whole sequence of chunks, from a given [buffer]. *)
Fixpoint onLine_feed (buffer : str) (chunks : list str)
  : list (str * str) * str :=
  match chunks with
  | [] => ([], buffer)
  | d :: chunks' =>
      let (calls, buffer') := onLine_data buffer d in
      let (calls', buffer'') := onLine_feed buffer' chunks' in
      (calls ++ calls', buffer'')
  end.

(** The reader as [onLine] starts it, on an empty [buffer]. *)
Definition onLine (chunks : list str) : list (str * str) * str :=
  onLine_feed [] chunks.

Definition esc : char := 27%N.

(** The call [callback(split[i].replace(re, empty), split[i])] for a
    segment [split[i]]. *)
Definition call_of (l : str) : str * str := (strip l, l).

(* ================================================================== *)
(** ** The host, the effects and the state of a run *)

(** What [util.promisify(cp.exec)] settles with: the two outputs, or the
    error it rejects with. *)
Inductive exec_result : Type :=
| ExecOk (stdout stderr : str)
| ExecError (message : str).

(** The facts of the host the script reads. *)
Record host : Type := Host {
  os_platform : str;               (* os.platform() *)
  os_arch : str;                   (* os.arch() *)
  env_OSTYPE : option str;         (* process.env.OSTYPE *)
  env_AUTO_PATCH : option str;     (* process.env.AUTO_PATCH *)
  ldd_version : exec_result;       (* what running "ldd --version" gives *)
  codeServerVersion : str;
  flow_rejects : option str        (* the error [build], [binary] or
                                      [package] rejects with in this run,
                                      if the flow entered does *)
}.

Inductive Target : Type := darwin | alpine | linux.

Definition Target_str (t : Target) : str :=
  match t with
  | darwin => lit "darwin"
  | alpine => lit "alpine"
  | linux => lit "linux"
  end.

Definition pid := nat.

(** The child processes of [watch]. *)
Inductive proc : Type :=
| vscode
| tsc
| server_proc (p : pid).

Inductive effect : Type :=
| Stdout (s : str)                  (* process.stdout.write *)
| Stderr (s : str)                  (* process.stderr.write *)
| ConsoleLog (args : list str)      (* console.log *)
| ConsoleError (args : list str)    (* console.error *)
| Exec (command : str)              (* cp.exec *)
| Spawn (p : proc)                  (* cp.spawn *)
| Fork (p : pid)                    (* cp.fork of out/node/entry.js *)
| BundlerBundle                     (* bundler.bundle() *)
| RemoveAllListeners (p : proc)
| Kill (p : proc)
| CallBuild                         (* this.build() *)
| CallBinary (binaryName : str)     (* this.binary(binaryName) *)
| CallPackage (binaryName : str)    (* this.package(binaryName) *)
| ProcessExit (code : Z).           (* process.exit *)

(** The promise [bundle]: pending with the reactions [then] has added, all
    of them [restartServer], or fulfilled. When it rejects, its [catch]
    handler leaves the process. *)
Inductive promise : Type :=
| Pending (reactions : nat)
| Fulfilled.

(** The fields of [Builder] that change, the variables the closures of
    [watch] capture, and the two pieces of the runtime they depend on: the
    queue of promise jobs and the forked servers whose "exit" event is
    still to come. *)
Record state : Type := State {
  _target : option Target;
  currentTask : option str;
  server : option pid;
  startingVscode : bool;
  vscode_buffer : str;
  tsc_buffer : str;
  bundle : promise;
  jobs : nat;
  next_pid : pid;
  live : list pid
}.

Definition set_target (v : option Target) (s : state) : state :=
  State v (currentTask s) (server s) (startingVscode s) (vscode_buffer s)
        (tsc_buffer s) (bundle s) (jobs s) (next_pid s) (live s).
Definition set_currentTask (v : option str) (s : state) : state :=
  State (_target s) v (server s) (startingVscode s) (vscode_buffer s)
        (tsc_buffer s) (bundle s) (jobs s) (next_pid s) (live s).
Definition set_server (v : option pid) (s : state) : state :=
  State (_target s) (currentTask s) v (startingVscode s) (vscode_buffer s)
        (tsc_buffer s) (bundle s) (jobs s) (next_pid s) (live s).
Definition set_startingVscode (v : bool) (s : state) : state :=
  State (_target s) (currentTask s) (server s) v (vscode_buffer s)
        (tsc_buffer s) (bundle s) (jobs s) (next_pid s) (live s).
Definition set_vscode_buffer (v : str) (s : state) : state :=
  State (_target s) (currentTask s) (server s) (startingVscode s) v
        (tsc_buffer s) (bundle s) (jobs s) (next_pid s) (live s).
Definition set_tsc_buffer (v : str) (s : state) : state :=
  State (_target s) (currentTask s) (server s) (startingVscode s)
        (vscode_buffer s) v (bundle s) (jobs s) (next_pid s) (live s).
Definition set_bundle (v : promise) (s : state) : state :=
  State (_target s) (currentTask s) (server s) (startingVscode s)
        (vscode_buffer s) (tsc_buffer s) v (jobs s) (next_pid s) (live s).
Definition set_jobs (v : nat) (s : state) : state :=
  State (_target s) (currentTask s) (server s) (startingVscode s)
        (vscode_buffer s) (tsc_buffer s) (bundle s) v (next_pid s) (live s).
Definition set_next_pid (v : pid) (s : state) : state :=
  State (_target s) (currentTask s) (server s) (startingVscode s)
        (vscode_buffer s) (tsc_buffer s) (bundle s) (jobs s) v (live s).
Definition set_live (v : list pid) (s : state) : state :=
  State (_target s) (currentTask s) (server s) (startingVscode s)
        (vscode_buffer s) (tsc_buffer s) (bundle s) (jobs s) (next_pid s) v.

(** A fresh [Builder], before [run]; the variables of [watch] get their
    values when [watch] is entered. *)
Definition new_Builder : state :=
  State None None None false [] [] Fulfilled 0 0 [].

(* ================================================================== *)
(** ** The monad of the script: state, a trace, exceptions and exit *)

Module Effects.

Inductive result (A : Type) : Type :=
| Ret (a : A) (st : state)           (* returned *)
| Throw (message : str) (st : state) (* threw [new Error(message)] *)
| Exit (code : Z) (st : state).      (* called process.exit(code) *)

Arguments Throw {A} message st.
Arguments Exit {A} code st.

Definition M (A : Type) : Type := state -> list effect * result A.

Definition ret {A} (a : A) : M A := fun st => ([], Ret a st).

Definition bind {A B} (m : M A) (f : A -> M B) : M B := fun st =>
  match m st with
  | (t, Ret a st') => let (t', r) := f a st' in (t ++ t', r)
  | (t, Throw e st') => (t, Throw e st')
  | (t, Exit c st') => (t, Exit c st')
  end.

Definition emit (e : effect) : M unit := fun st => ([e], Ret tt st).

Definition gets {A} (f : state -> A) : M A := fun st => ([], Ret (f st) st).

Definition modify (f : state -> state) : M unit :=
  fun st => ([], Ret tt (f st)).

Definition throw {A} (message : str) : M A :=
  fun st => ([], Throw message st).

(** [process.exit(code)]: nothing after it runs. *)
Definition process_exit {A} (code : Z) : M A :=
  fun st => ([ProcessExit code], Exit code st).

(** [m.catch(handler)], [try m catch handler]. *)
Definition catch {A} (m : M A) (handler : str -> M A) : M A := fun st =>
  match m st with
  | (t, Throw e st') => let (t', r) := handler e st' in (t ++ t', r)
  | other => other
  end.

Definition when (b : bool) (m : M unit) : M unit := if b then m else ret tt.

Fixpoint times (n : nat) (m : M unit) : M unit :=
  match n with
  | O => ret tt
  | S n' => bind m (fun _ => times n' m)
  end.

Fixpoint for_each {A} (l : list A) (f : A -> M unit) : M unit :=
  match l with
  | [] => ret tt
  | a :: l' => bind (f a) (fun _ => for_each l' f)
  end.

Definition trace {A} (r : list effect * result A) : list effect := fst r.

Definition final {A} (r : list effect * result A) : state :=
  match snd r with
  | Ret _ st => st
  | Throw _ st => st
  | Exit _ st => st
  end.

Definition exit_code {A} (r : list effect * result A) : option Z :=
  match snd r with
  | Exit c _ => Some c
  | _ => None
  end.

End Effects.

Import Effects.

Notation "x <- m ;; k" := (bind m (fun x => k))
  (at level 61, m at next level, right associativity).
Notation "m ;; k" := (bind m (fun _ => k))
  (at level 61, right associativity).

(* ================================================================== *)
(** ** [Builder] *)

Definition quote : char := 34%N.

Definition quoted (s : str) : str := quote :: s ++ [quote].

(** [x || d] for a string that may be undefined. *)
Definition or_else (x : option str) (d : str) : str :=
  match x with
  | Some s => if truthy s then s else d
  | None => d
  end.

(** [code || 0] for [code?: number | null]. *)
Definition or_zero (code : option Z) : Z :=
  match code with
  | Some c => if Z.eqb c 0 then 0%Z else c
  | None => 0%Z
  end.

(** The events the callbacks registered by [watch] are called for. *)
Inductive event : Type :=
| SIGINT
| SIGTERM
| vscode_exit (code : option Z)
| tsc_exit (code : option Z)
| bundle_fulfilled
| bundle_rejected
| buildEnd
| buildError (error : str)
| vscode_stderr (d : str)
| tsc_stderr (d : str)
| vscode_stdout (d : str)
| tsc_stdout (d : str)
| server_exit (p : pid)
| patch_generate_done (error : option str) (stderr : str).

Section Builder.

Variable h : host.

Definition log (message : str) (skipNewline : bool) : M unit :=
  task <- gets currentTask ;;
  emit (Stdout (lit "[" ++ or_else task (lit "default") ++ lit "] " ++ message)) ;;
  when (negb skipNewline) (emit (Stdout [newline])).

Definition ensureArgument (name : str) (arg : option str) : M str :=
  if negb (truthy_opt arg) then throw (name ++ lit " is missing")
  else
    let arg := or_else arg [] in
    log (name ++ lit " is " ++ quoted arg) false ;;
    ret arg.

(** [os.platform() === "darwin" ||
     (process.env.OSTYPE && /^darwin/.test(process.env.OSTYPE))] *)
Definition host_is_darwin : bool :=
  str_eqb (os_platform h) (lit "darwin")
  || match env_OSTYPE h with
     | Some o => truthy o && starts_with (lit "darwin") o
     | None => false
     end.

(** The probe of [target], with its [catch]: the pair (stderr, stdout). *)
Definition ldd_result : str * str :=
  match ldd_version h with
  | ExecOk stdout stderr => (stderr, stdout)
  | ExecError message => (message, [])
  end.

Definition target : M Target :=
  cached <- gets _target ;;
  match cached with
  | Some t => ret t
  | None =>
      if host_is_darwin then
        modify (set_target (Some darwin)) ;; ret darwin
      else
        emit (Exec (lit "ldd --version")) ;;
        let result := ldd_result in
        let t := if includes (fst result) (lit "musl")
                    || includes (snd result) (lit "musl")
                 then alpine else linux in
        modify (set_target (Some t)) ;; ret t
  end.

(* ------------------------------------------------------------------ *)
(** *** [watch] and its closures *)

(** [cp.fork]: the new child gets the next process id. *)
Definition fork : M pid := fun st =>
  let p := next_pid st in
  ([Fork p], Ret p (set_live (p :: live st) (set_next_pid (S p) st))).

Definition restartServer : M unit :=
  old <- gets server ;;
  match old with
  | Some p => emit (Kill (server_proc p))
  | None => ret tt
  end ;;
  s <- fork ;;
  emit (ConsoleLog [lit "[server] spawned process " ++ of_nat s]) ;;
  modify (set_server (Some s)).

Definition cleanup (code : option Z) : M unit :=
  log (lit "killing vs code watcher") false ;;
  emit (RemoveAllListeners vscode) ;;
  emit (Kill vscode) ;;
  log (lit "killing tsc") false ;;
  emit (RemoveAllListeners tsc) ;;
  emit (Kill tsc) ;;
  s <- gets server ;;
  match s with
  | Some p =>
      log (lit "killing server") false ;;
      emit (RemoveAllListeners (server_proc p)) ;;
      emit (Kill (server_proc p))
  | None => ret tt
  end ;;
  log (lit "killing bundler") false ;;
  process_exit (or_zero code).

(** The "data" listener [onLine] puts on the standard output of a child,
    over the [buffer] of that call of [onLine]. Both children are spawned
    with a piped standard output, so the test of [proc.stdout] at the head
    of [onLine] passes. *)
Definition on_data (buffer : state -> str) (set_buffer : str -> state -> state)
    (callback : str -> str -> M unit) (d : str) : M unit :=
  b <- gets buffer ;;
  let (calls, b') := onLine_data b d in
  for_each calls (fun c => callback (fst c) (snd c)) ;;
  modify (set_buffer b').

(** The callback of [onLine(vscode, ...)]. *)
Definition vscode_line (line original : str) : M unit :=
  emit (ConsoleLog [lit "[vscode]"; original]) ;;
  starting <- gets startingVscode ;;
  if negb starting && includes line (lit "Starting watch-client") then
    modify (set_startingVscode true)
  else if starting && includes line (lit "Finished compilation")
          && truthy_opt (env_AUTO_PATCH h) then
    emit (Exec (lit "yarn patch:generate"))
  else ret tt.

(** [bundle.then(restartServer)] *)
Definition bundle_then_restartServer : M unit :=
  b <- gets bundle ;;
  match b with
  | Pending n => modify (set_bundle (Pending (S n)))
  | Fulfilled => modify (fun st => set_jobs (S (jobs st)) st)
  end.

(** The callback of [onLine(tsc, ...)]. *)
Definition tsc_line (line original : str) : M unit :=
  when (negb (str_eqb line [])) (emit (ConsoleLog [lit "[tsc]"; original])) ;;
  when (includes line (lit "Watching for file changes"))
       bundle_then_restartServer.

(** The body of [watch]: it starts the children and the bundler, registers
    the callbacks below and returns. *)
Definition watch : M unit :=
  modify (set_server None) ;;
  emit (Spawn vscode) ;;
  emit (Spawn tsc) ;;
  emit BundlerBundle ;;
  modify (set_bundle (Pending 0)) ;;
  modify (set_startingVscode false) ;;
  modify (set_vscode_buffer []) ;;
  modify (set_tsc_buffer []).

(** The callback registered for each event. *)
Definition callback (e : event) : M unit :=
  match e with
  | SIGINT => cleanup None
  | SIGTERM => cleanup None
  | vscode_exit code =>
      log (lit "vs code watcher terminated unexpectedly") false ;;
      cleanup code
  | tsc_exit code =>
      log (lit "tsc terminated unexpectedly") false ;;
      cleanup code
  | bundle_rejected =>
      log (lit "parcel watcher terminated unexpectedly") false ;;
      cleanup (Some 1%Z)
  | bundle_fulfilled =>
      b <- gets bundle ;;
      match b with
      | Pending n =>
          modify (fun st => set_jobs (jobs st + n) (set_bundle Fulfilled st))
      | Fulfilled => ret tt
      end
  | buildEnd => emit (ConsoleLog [lit "[parcel] bundled"])
  | buildError error => emit (ConsoleError [lit "[parcel]"; error])
  | vscode_stderr d => emit (Stderr d)
  | tsc_stderr d => emit (Stderr d)
  | vscode_stdout d => on_data vscode_buffer set_vscode_buffer vscode_line d
  | tsc_stdout d => on_data tsc_buffer set_tsc_buffer tsc_line d
  | server_exit p =>
      emit (ConsoleLog [lit "[server] process " ++ of_nat p ++ lit " exited"]) ;;
      modify (fun st => set_live (filter (fun q => negb (Nat.eqb q p)) (live st)) st)
  | patch_generate_done error stderr =>
      match error with
      | Some message => emit (ConsoleError [message])
      | None => when (truthy stderr) (emit (ConsoleError [stderr]))
      end
  end.

(** The promise jobs queued by a callback run when it returns. *)
Definition run_jobs : M unit :=
  n <- gets jobs ;;
  modify (set_jobs 0) ;;
  times n restartServer.

(** One turn of the event loop. *)
Definition turn (e : event) : M unit := callback e ;; run_jobs.

(** The event loop over a sequence of events; it ends at [process.exit]. *)
Definition event_loop (events : list event) : M unit := for_each events turn.

(* ------------------------------------------------------------------ *)
(** *** [doRun] and [run] *)

(** [os.arch().replace(/^x/, "x86_")] *)
Definition arch_name : str :=
  match os_arch h with
  | c :: rest => if N.eqb c (ch "x") then lit "x86_" ++ rest else c :: rest
  | [] => []
  end.

(** The call of one of the flows [build], [binary] and [package], and what
    the promise it returns settles with: the flow resolves, or it rejects
    with an error, which [doRun] passes on. *)
Definition flow (call : effect) : M unit :=
  emit call ;;
  match flow_rejects h with
  | Some message => throw message
  | None => ret tt
  end.

Definition doRun (task : option str) : M unit :=
  if negb (truthy_opt task) then throw (lit "No task provided")
  else
    let task := or_else task [] in
    arch <- ensureArgument (lit "arch") (Some arch_name) ;;
    t <- target ;;
    target <- ensureArgument (lit "target") (Some (Target_str t)) ;;
    let binaryName :=
      lit "code-server-" ++ codeServerVersion h ++ lit "-" ++ target
        ++ lit "-" ++ arch in
    if str_eqb task (lit "watch") then watch
    else if str_eqb task (lit "binary") then flow (CallBinary binaryName)
    else if str_eqb task (lit "package") then flow (CallPackage binaryName)
    else if str_eqb task (lit "build") then flow CallBuild
    else throw (lit "No task matching " ++ quoted task).

Definition run (task : option str) : M unit :=
  modify (set_currentTask task) ;;
  catch (doRun task)
        (fun message => emit (ConsoleError [message]) ;; process_exit 1%Z).

End Builder.

(* ================================================================== *)
(** ** Notions the properties below are stated with *)

Definition is_some {A} (o : option A) : bool :=
  match o with Some _ => true | None => false end.

(** Every introducer of [s] starts a match of [pattern]. *)
Fixpoint well_escaped (s : str) : bool :=
  match s with
  | [] => true
  | c :: s' =>
      (negb (introducer c) || is_some (match_at pattern s)) && well_escaped s'
  end.

(** The introducers of [s] at which no match of [pattern] starts. *)
Fixpoint unmatched (s : str) : nat :=
  match s with
  | [] => 0
  | c :: s' =>
      (if introducer c && negb (is_some (match_at pattern s)) then 1 else 0)
      + unmatched s'
  end.

(** The introducers a string holds. *)
Definition introducers (s : str) : nat := List.length (filter introducer s).

(** Every class of [r] lies within [q]. *)
Fixpoint classes_within (q : char -> bool) (r : regex) : Prop :=
  match r with
  | Class p => forall c : char, p c = true -> q c = true
  | Eps => True
  | Seq a b => classes_within q a /\ classes_within q b
  | Alt a b => classes_within q a /\ classes_within q b
  | Star a => classes_within q a
  end.

(** What [pattern] matches behind the introducer. *)
Definition pattern_body : regex :=
  Seq (Star (Class prefix_class)) (Alt bell_form final_form).

(** No stripped line handed to a callback holds an escape character. *)
Definition stripped_lines_escape_free : Prop :=
  forall (chunks : list str) (stripped original : str),
    In (stripped, original) (fst (onLine chunks)) -> ~ In esc stripped.

(** A line with a colour sequence, a character-set sequence, a sequence
    behind the one-character introducer and a title sequence, and a stream
    that carries it in two chunks, cut inside the first sequence. *)
Definition sample_line : str :=
  lit "ab" ++ esc :: lit "[1;31mred" ++ esc :: lit "(B" ++
  155%N :: lit "0m" ++ esc :: lit "]0;t" ++ [7%N].

Definition sample_chunks : list str :=
  [lit "ab" ++ esc :: lit "[1;";
   lit "31mred" ++ esc :: lit "(B" ++ 155%N :: lit "0m" ++ esc :: lit "]0;t"
     ++ [7%N; newline] ++ lit "x"].

(** The calls of [cp.exec("yarn patch:generate", ...)] in a trace. *)
Definition is_patch (e : effect) : bool :=
  match e with
  | Exec command => str_eqb command (lit "yarn patch:generate")
  | _ => false
  end.

Definition patches (t : list effect) : nat := List.length (filter is_patch t).

(** The callback of [onLine(vscode, ...)] over the calls the reader makes. *)
Definition vscode_lines (h : host) (calls : list (str * str)) : M unit :=
  for_each calls (fun c => vscode_line h (fst c) (snd c)).

(** The two tests of the callback of [onLine(vscode, ...)]. *)
Definition arming (st : state) (line : str) : bool :=
  negb (startingVscode st) && includes line (lit "Starting watch-client").

Definition firing (h : host) (st : state) (line : str) : bool :=
  startingVscode st && includes line (lit "Finished compilation")
  && truthy_opt (env_AUTO_PATCH h).

Definition arms (c : str * str) : bool :=
  includes (fst c) (lit "Starting watch-client").

Definition finished (c : str * str) : bool :=
  includes (fst c) (lit "Finished compilation").

(** A Linux host with glibc, AUTO_PATCH set. *)
Definition linux_host : host :=
  Host (lit "linux") (lit "x64") None (Some (lit "1"))
       (ExecOk (lit "ldd (GNU libc) 2.31") []) (lit "2.1.0") None.

(** The state [run("watch")] leaves on a host. *)
Definition watching (h : host) : state :=
  final (run h (Some (lit "watch")) new_Builder).

(** With AUTO_PATCH set, a run of the watcher starts the patch command at
    most once. *)
Definition auto_patch_at_most_once : Prop :=
  forall (h : host) (chunks : list str),
    truthy_opt (env_AUTO_PATCH h) = true ->
    patches (trace (event_loop h (map vscode_stdout chunks) (watching h))) <= 1.

(** What [this.log(message)] writes. *)
Definition log_trace (st : state) (message : str) : list effect :=
  [Stdout (lit "[" ++ or_else (currentTask st) (lit "default") ++ lit "] "
           ++ message);
   Stdout [newline]].

(** The part of a trace that acts on processes: listeners removed, signals
    sent, and the exit of the script. *)
Definition is_lifecycle (e : effect) : bool :=
  match e with
  | RemoveAllListeners _ | Kill _ | ProcessExit _ => true
  | _ => false
  end.

Definition lifecycle (t : list effect) : list effect := filter is_lifecycle t.

(** What [cleanup] does to the children, for a given [server]. *)
Definition teardown (s : option pid) : list effect :=
  [RemoveAllListeners vscode; Kill vscode; RemoveAllListeners tsc; Kill tsc]
  ++ match s with
     | Some p => [RemoveAllListeners (server_proc p); Kill (server_proc p)]
     | None => []
     end.

(** The signal [restartServer] sends to the server it holds. *)
Definition kill_old (s : option pid) : list effect :=
  match s with
  | Some p => [Kill (server_proc p)]
  | None => []
  end.

(** The servers forked in a trace. *)
Definition is_fork (e : effect) : bool :=
  match e with Fork _ => true | _ => false end.

Definition forks (t : list effect) : nat := List.length (filter is_fork t).

(** The child processes started in a trace. *)
Definition is_child (e : effect) : bool :=
  match e with
  | Exec _ | Spawn _ | Fork _ => true
  | _ => false
  end.

Definition children (t : list effect) : list effect := filter is_child t.

(** The flows [doRun] chooses between, as they appear in a trace. *)
Definition is_pipeline (e : effect) : bool :=
  match e with
  | CallBuild | CallBinary _ | CallPackage _ | Spawn _ | BundlerBundle => true
  | _ => false
  end.

Definition pipelines (t : list effect) : list effect := filter is_pipeline t.

(** The values of [Task]. *)
Definition is_Task (t : str) : bool :=
  existsb (str_eqb t) [lit "binary"; lit "package"; lit "build"; lit "watch"].

(** The callback of [onLine(tsc, ...)] over the calls the reader makes. *)
Definition tsc_lines (calls : list (str * str)) : M unit :=
  for_each calls (fun c => tsc_line (fst c) (snd c)).

(** The lines of the TypeScript watcher that ask for a restart. *)
Definition watching_marker (c : str * str) : bool :=
  includes (fst c) (lit "Watching for file changes").

(** The probe of [target] mentions musl, in either output when it
    succeeded, in the message of its error when it failed. *)
Definition probe_mentions_musl (h : host) : bool :=
  match ldd_version h with
  | ExecOk stdout stderr =>
      includes stdout (lit "musl") || includes stderr (lit "musl")
  | ExecError message => includes message (lit "musl")
  end.

(** An Alpine host: its ldd has no version flag and fails with the version
    on its error output. *)
Definition alpine_host : host :=
  Host (lit "linux") (lit "x64") None None
       (ExecError (lit "Command failed: ldd --version" ++ newline ::
                   lit "musl libc (x86_64)"))
       (lit "2.1.0") None.

Definition darwin_host : host :=
  Host (lit "darwin") (lit "x64") (Some (lit "darwin19")) None
       (ExecError (lit "Command failed: ldd --version")) (lit "2.1.0") None.

(** Two restarts never leave two servers whose exit is still to come. *)
Definition servers_never_overlap : Prop :=
  forall (h : host) (events : list event),
    List.length (live (final (event_loop h events (watching h)))) <= 1.

(** A watcher that exits makes the script exit with code 1, whatever its
    own code. *)
Definition watcher_exit_fails_run : Prop :=
  forall (h : host) (st : state) (code : option Z),
    exit_code (turn h (vscode_exit code) st) = Some 1%Z
    /\ exit_code (turn h (tsc_exit code) st) = Some 1%Z.

(** A missing or unknown task makes [run] exit with a code other than 0,
    with no child process started and no flow entered. *)
Definition bad_task_starts_nothing : Prop :=
  forall (h : host) (task : option str),
    match task with Some t => is_Task t = false | None => True end ->
    let r := run h task new_Builder in
    (exists c, exit_code r = Some c /\ c <> 0%Z)
    /\ children (trace r) = []
    /\ pipelines (trace r) = [].

(* ================================================================== *)
(** ** Notions for the further properties *)

(** [a] is [b] with some of its code units left out. *)
Inductive subsequence : str -> str -> Prop :=
| subsequence_nil : subsequence [] []
| subsequence_keep (c : char) (a b : str) :
    subsequence a b -> subsequence (c :: a) (c :: b)
| subsequence_drop (c : char) (a b : str) :
    subsequence a b -> subsequence a (c :: b).

(** The answer of [target] in a state on a host: the cached value, or what
    the host gives. *)
Definition resolved_target (h : host) (st : state) : Target :=
  match _target st with
  | Some t => t
  | None =>
      if host_is_darwin h then darwin
      else if probe_mentions_musl h then alpine else linux
  end.

(** What a call of [target] starts: the probe, when nothing is cached and
    the host is not Darwin. *)
Definition probe_trace (h : host) (st : state) : list effect :=
  match _target st with
  | Some _ => []
  | None => if host_is_darwin h then [] else [Exec (lit "ldd --version")]
  end.

(** The state a call of [target] leaves. *)
Definition target_state (h : host) (st : state) : state :=
  match _target st with
  | Some _ => st
  | None => set_target (Some (resolved_target h st)) st
  end.

(** [code-server-${version}-${target}-${arch}] *)
Definition binary_name (h : host) (t : Target) : str :=
  lit "code-server-" ++ codeServerVersion h ++ lit "-" ++ Target_str t
    ++ lit "-" ++ arch_name h.

(** The error the flow of a task rejects with: [watch] returns once the
    watchers are started, the other flows settle as the run has it. *)
Definition flow_outcome (h : host) (t : str) : option str :=
  if str_eqb t (lit "watch") then None else flow_rejects h.

(** A Linux host on which the flow entered rejects: [package] without the
    binary to copy. *)
Definition no_binary_host : host :=
  Host (lit "linux") (lit "x64") None None
       (ExecOk (lit "ldd (GNU libc) 2.31") []) (lit "2.1.0")
       (Some (lit "ENOENT: no such file or directory, copyfile")).

(** The arguments of the calls of [console.log] in a trace. *)
Fixpoint console_logs (t : list effect) : list (list str) :=
  match t with
  | [] => []
  | ConsoleLog args :: t' => args :: console_logs t'
  | _ :: t' => console_logs t'
  end.

(** The code an event makes the script exit with, if it does. *)
Definition exit_of (e : event) : option Z :=
  match e with
  | SIGINT | SIGTERM => Some 0%Z
  | vscode_exit code | tsc_exit code => Some (or_zero code)
  | bundle_rejected => Some 1%Z
  | _ => None
  end.

(** What the callbacks of [watch] do as long as the script runs: they write
    to the console, pass the error output of the children on, start the
    patch command when AUTO_PATCH is set, and signal or fork servers. *)
Definition watch_effect (h : host) (e : effect) : bool :=
  match e with
  | ConsoleLog _ | ConsoleError _ | Stderr _ | Fork _ => true
  | Kill (server_proc _) => true
  | Exec command =>
      truthy_opt (env_AUTO_PATCH h)
      && str_eqb command (lit "yarn patch:generate")
  | _ => false
  end.

(** The events whose callback only writes to the console. *)
Definition only_logs (e : event) : bool :=
  match e with
  | buildEnd | buildError _ | vscode_stderr _ | tsc_stderr _
  | patch_generate_done _ _ => true
  | _ => false
  end.

(** What the callbacks of [watch] leave alone in the state: the cached
    target and the task; and they never lower [startingVscode]. *)
Definition keeps (st st' : state) : Prop :=
  _target st' = _target st
  /\ currentTask st' = currentTask st
  /\ implb (startingVscode st) (startingVscode st') = true.

(** The events that do not make the script exit. *)
Definition stays (e : event) : bool := negb (is_some (exit_of e)).

(* ================================================================== *)
(** ** The one-shot flows: [task], [package] and the constructor *)

Module Pipeline.

(** The operations on the file system and the commands [package] awaits. *)
Inductive op : Type :=
| fs_remove (path : str)
| fs_mkdirp (path : str)
| fs_copyFile (src dest : str)
| exec_in (command cwd : str).     (* cp.exec(command, { cwd }) *)

(** A step of a flow: an operation, or an effect of the script itself. *)
Inductive step : Type :=
| Did (o : op)
| Eff (e : effect).

Definition P (A : Type) : Type := state -> list step * result A.

Definition retP {A} (a : A) : P A := fun st => ([], Ret a st).

Definition bindP {A B} (m : P A) (f : A -> P B) : P B := fun st =>
  match m st with
  | (t, Ret a st') => let (t', r) := f a st' in (t ++ t', r)
  | (t, Throw e st') => (t, Throw e st')
  | (t, Exit c st') => (t, Exit c st')
  end.

(** A method of [Builder] that only has effects of the script. *)
Definition lift {A} (m : M A) : P A := fun st =>
  let (t, r) := m st in (map Eff t, r).

(** [try m catch handler] *)
Definition catchP {A} (m : P A) (handler : str -> P A) : P A := fun st =>
  match m st with
  | (t, Throw e st') => let (t', r) := handler e st' in (t ++ t', r)
  | other => other
  end.

(** The operations in a trace. *)
Fixpoint dids (t : list step) : list op :=
  match t with
  | [] => []
  | Did o :: t' => o :: dids t'
  | Eff _ :: t' => dids t'
  end.

(** The effects of the script in a trace. *)
Fixpoint effs (t : list step) : list effect :=
  match t with
  | [] => []
  | Did _ :: t' => effs t'
  | Eff e :: t' => e :: effs t'
  end.

(** Decimal text of an integer, as a template literal prints it. *)
Definition of_Z (z : Z) : str :=
  if Z.ltb z 0 then lit "-" ++ of_nat (Z.abs_nat z) else of_nat (Z.to_nat z).

End Pipeline.

Import Pipeline.

Notation "x <-- m ;;; k" := (bindP m (fun x => k))
  (at level 61, m at next level, right associativity).
Notation "m ;;; k" := (bindP m (fun _ => k))
  (at level 61, right associativity).

(** What [require(path.join(rootPath, "package.json"))] gives: the module
    with its version field, which may be missing, or the error it throws. *)
Inductive required : Type :=
| Required (version : option str)
| RequireError (message : str).

Section Flows.

Variable h : host.

(** [this.rootPath], and [path.join] on two arguments. *)
Variable rootPath : str.
Variable path_join : str -> str -> str.

(** The outside: the error an operation rejects with, if it does. *)
Variable fails : op -> option str.

Definition vscodeSourcePath : str := path_join rootPath (lit "lib/vscode").
Definition binariesPath : str := path_join rootPath (lit "binaries").

(** [await] of an operation. *)
Definition await (o : op) : P unit := fun st =>
  match fails o with
  | None => ([Did o], Ret tt st)
  | Some message => ([Did o], Throw message st)
  end.

(** [task(message, fn)]; [time] and [now] are the two readings of
    Date.now(), before [fn] and after it. *)
Definition task {T} (time now : Z) (message : str) (fn : P T) : P T :=
  lift (log (message ++ lit "...") true) ;;;
  catchP
    (t <-- fn ;;;
     lift (emit (Stdout (lit "took " ++ of_Z (now - time) ++ lit "ms"
                         ++ [newline]))) ;;;
     retP t)
    (fun error =>
       lift (emit (Stdout (lit "failed" ++ [newline]))) ;;;
       lift (throw error)).

Definition package (binaryName : str) : P unit :=
  let releasePath := path_join rootPath (lit "release") in
  let archivePath := path_join releasePath binaryName in
  await (fs_remove archivePath) ;;;
  await (fs_mkdirp archivePath) ;;;
  await (fs_copyFile (path_join binariesPath binaryName)
                     (path_join archivePath (lit "code-server"))) ;;;
  await (fs_copyFile (path_join rootPath (lit "README.md"))
                     (path_join archivePath (lit "README.md"))) ;;;
  await (fs_copyFile (path_join vscodeSourcePath (lit "LICENSE.txt"))
                     (path_join archivePath (lit "LICENSE.txt"))) ;;;
  await (fs_copyFile (path_join vscodeSourcePath (lit "ThirdPartyNotices.txt"))
                     (path_join archivePath (lit "ThirdPartyNotices.txt"))) ;;;
  t <-- lift (target h) ;;;
  match t with
  | darwin =>
      await (exec_in (lit "zip -r " ++ quoted (binaryName ++ lit ".zip")
                      ++ lit " " ++ quoted binaryName) releasePath) ;;;
      lift (log (lit "archive: " ++ archivePath ++ lit ".zip") false)
  | _ =>
      await (exec_in (lit "tar -czf " ++ quoted (binaryName ++ lit ".tar.gz")
                      ++ lit " " ++ quoted binaryName) releasePath) ;;;
      lift (log (lit "archive: " ++ archivePath ++ lit ".tar.gz") false)
  end.

(** The constructor of [Builder]: it checks the root path, then takes the
    version from VERSION or, only when that is not set, from package.json;
    it gives [codeServerVersion]. *)
Definition Builder_constructor (env_VERSION : option str)
    (package_json : required) : M str :=
  ensureArgument (lit "rootPath") (Some rootPath) ;;
  version <- (if truthy_opt env_VERSION then ret env_VERSION
              else match package_json with
                   | Required version => ret version
                   | RequireError message => throw message
                   end) ;;
  ensureArgument (lit "codeServerVersion") version.

(** The operations of [package] in their order, for a target. *)
Definition package_ops (binaryName : str) (t : Target) : list op :=
  let releasePath := path_join rootPath (lit "release") in
  let archivePath := path_join releasePath binaryName in
  [fs_remove archivePath;
   fs_mkdirp archivePath;
   fs_copyFile (path_join binariesPath binaryName)
               (path_join archivePath (lit "code-server"));
   fs_copyFile (path_join rootPath (lit "README.md"))
               (path_join archivePath (lit "README.md"));
   fs_copyFile (path_join vscodeSourcePath (lit "LICENSE.txt"))
               (path_join archivePath (lit "LICENSE.txt"));
   fs_copyFile (path_join vscodeSourcePath (lit "ThirdPartyNotices.txt"))
               (path_join archivePath (lit "ThirdPartyNotices.txt"));
   match t with
   | darwin =>
       exec_in (lit "zip -r " ++ quoted (binaryName ++ lit ".zip")
                ++ lit " " ++ quoted binaryName) releasePath
   | _ =>
       exec_in (lit "tar -czf " ++ quoted (binaryName ++ lit ".tar.gz")
                ++ lit " " ++ quoted binaryName) releasePath
   end].

(** A list of operations done in order until one fails: the operations
    reached, and the error of the one that failed. *)
Fixpoint until_failure (ops : list op) : list op * option str :=
  match ops with
  | [] => ([], None)
  | o :: ops' =>
      match fails o with
      | Some message => ([o], Some message)
      | None => let (done, e) := until_failure ops' in (o :: done, e)
      end
  end.

End Flows.

(** An outside where everything succeeds, and one where copying the
    license fails. *)
Definition all_fine (o : op) : option str := None.

Definition join_slash (a b : str) : str := a ++ lit "/" ++ b.

Definition no_license (o : op) : option str :=
  match o with
  | fs_copyFile src _ =>
      if includes src (lit "LICENSE") then Some (lit "ENOENT: no such file")
      else None
  | _ => None
  end.

(* ================================================================== *)
(** ** Notions for the teardown and for the builds of the bundler *)

Definition is_process_exit (e : effect) : bool :=
  match e with ProcessExit _ => true | _ => false end.

(** The signals sent to a watcher. *)
Definition is_kill_of_vscode (e : effect) : bool :=
  match e with Kill vscode => true | _ => false end.

Definition is_kill_of_tsc (e : effect) : bool :=
  match e with Kill tsc => true | _ => false end.

(** What happens around the bundler in watch mode: it starts a rebuild,
    for which [watch] registers no listener, so that the script is not
    told; or an event is delivered to the script. *)
Inductive happening : Type :=
| rebuild_starts
| delivers (e : event).

(** The events the script is told of. *)
Fixpoint delivered (past : list happening) : list event :=
  match past with
  | [] => []
  | rebuild_starts :: past' => delivered past'
  | delivers e :: past' => e :: delivered past'
  end.

(** A bundler operation is pending: the first bundle, until its promise
    settles, or a rebuild, from its start to its buildEnd or buildError. *)
Fixpoint bundler_pending_from (first rebuild : bool) (past : list happening)
  : bool :=
  match past with
  | [] => first || rebuild
  | rebuild_starts :: past' => bundler_pending_from first true past'
  | delivers bundle_fulfilled :: past'
  | delivers bundle_rejected :: past' =>
      bundler_pending_from false rebuild past'
  | delivers buildEnd :: past'
  | delivers (buildError _) :: past' =>
      bundler_pending_from first false past'
  | delivers _ :: past' => bundler_pending_from first rebuild past'
  end.

(** After [watch] has called bundler.bundle() the first bundle is pending. *)
Definition bundler_pending (past : list happening) : bool :=
  bundler_pending_from true false past.

(** Whenever a bundler operation is pending, a chunk of tsc restarts
    nothing in its turn. *)
Definition restart_waits_for_any_build : Prop :=
  forall (h : host) (past : list happening) (d : str),
    bundler_pending past = true ->
    forks (trace (turn h (tsc_stdout d)
                    (final (event_loop h (delivered past) (watching h))))) = 0.

(* ================================================================== *)
(** ** The line reader does not depend on the chunking *)

Section LineReader.

Lemma split_not_nil (s : str) : JS.split s <> [].
Proof.
  induction s as [|c s IH]; simpl; [discriminate|].
  destruct (N.eqb c newline); [discriminate|].
  destruct (JS.split s); [contradiction | discriminate].
Qed.

Lemma nth_pred_length {A} (l : list A) (d : A) :
  nth (List.length l - 1) l d = last l d.
Proof.
  destruct l as [|a l]; [reflexivity|].
  rewrite (app_removelast_last d (l := a :: l)) at 1 2 by discriminate.
  rewrite length_app, app_nth2; simpl List.length; [|lia].
  replace (_ - _) with 0 by lia. reflexivity.
Qed.

Lemma firstn_pred_length {A} (l : list A) :
  firstn (List.length l - 1) l = removelast l.
Proof. rewrite removelast_firstn_len. f_equal. lia. Qed.

(** Splitting a concatenation: the complete segments of the first part,
    then the split of its unterminated tail followed by the second part. *)
Lemma split_app (a b : str) :
  JS.split (a ++ b)
  = removelast (JS.split a) ++ JS.split (last (JS.split a) [] ++ b).
Proof.
  induction a as [|c a IH]; [reflexivity|].
  cbn [JS.split app]. destruct (N.eqb c newline) eqn:E.
  - rewrite IH. pose proof (split_not_nil a) as Hn.
    destruct (JS.split a) as [|l ls]; [contradiction|]. reflexivity.
  - rewrite IH. pose proof (split_not_nil a) as Hn.
    destruct (JS.split a) as [|l ls]; [contradiction|].
    destruct ls as [|l' ls].
    + cbn [removelast last app JS.split]. rewrite E.
      pose proof (split_not_nil (l ++ b)) as Hn'.
      destruct (JS.split (l ++ b)); [contradiction | reflexivity].
    + reflexivity.
Qed.

Lemma removelast_split_app (a b : str) :
  removelast (JS.split (a ++ b))
  = removelast (JS.split a)
    ++ removelast (JS.split (last (JS.split a) [] ++ b)).
Proof. rewrite split_app. apply removelast_app, split_not_nil. Qed.

Lemma last_split_app (a b : str) :
  last (JS.split (a ++ b)) [] = last (JS.split (last (JS.split a) [] ++ b)) [].
Proof.
  rewrite split_app.
  pose proof (split_not_nil (last (JS.split a) [] ++ b)) as Hn.
  revert Hn. generalize (JS.split (last (JS.split a) [] ++ b)) as t.
  generalize (removelast (JS.split a)) as i. intros i t Hn.
  rewrite (app_removelast_last [] Hn), app_assoc, !last_last. reflexivity.
Qed.

(** A buffer never holds a newline, so it is its own only segment. *)
Lemma split_last_split (s : str) :
  JS.split (last (JS.split s) []) = [last (JS.split s) []].
Proof.
  induction s as [|c s IH]; [reflexivity|].
  cbn [JS.split]. pose proof (split_not_nil s) as Hn.
  destruct (N.eqb c newline) eqn:E.
  - destruct (JS.split s) as [|l ls]; [contradiction|]. exact IH.
  - destruct (JS.split s) as [|l ls]; [contradiction|].
    destruct ls as [|l' ls]; [|exact IH].
    cbn [last] in *. cbn [JS.split]. rewrite E, IH. reflexivity.
Qed.

Lemma onLine_data_split (buffer d : str) :
  onLine_data buffer d
  = (map call_of (removelast (JS.split (buffer ++ d))),
     last (JS.split (buffer ++ d)) []).
Proof.
  unfold onLine_data. rewrite firstn_pred_length, nth_pred_length. reflexivity.
Qed.

(** The reader started on a buffer [last (split s)] behaves on the chunks
    as one split of [s] followed by all of them. *)
Lemma onLine_feed_split (chunks : list str) : forall s : str,
  let whole := s ++ List.concat chunks in
  onLine_feed (last (JS.split s) []) chunks
  = (map call_of (removelast (JS.split (last (JS.split s) [] ++ List.concat chunks))),
     last (JS.split whole) []).
Proof.
  induction chunks as [|d chunks IH]; intros s whole; subst whole.
  - cbn [onLine_feed List.concat]. rewrite !app_nil_r, split_last_split. reflexivity.
  - cbn [onLine_feed List.concat]. rewrite onLine_data_split.
    rewrite <- (last_split_app s d).
    rewrite (IH (s ++ d)). cbn zeta. rewrite <- app_assoc. f_equal.
    rewrite <- map_app. f_equal.
    rewrite (app_assoc _ d).
    rewrite (removelast_split_app (last (JS.split s) [] ++ d) (List.concat chunks)).
    rewrite (last_split_app s d). reflexivity.
Qed.

Lemma onLine_split (chunks : list str) :
  onLine chunks
  = (map call_of (removelast (JS.split (List.concat chunks))),
     last (JS.split (List.concat chunks)) []).
Proof. exact (onLine_feed_split chunks []). Qed.

(** The segments of a split, each but the last closed by a newline, give
    the string back. *)
Lemma join_split (s : str) :
  List.concat (map (fun l => l ++ [newline]) (removelast (JS.split s)))
    ++ last (JS.split s) [] = s.
Proof.
  induction s as [|c s IH]; [reflexivity|].
  cbn [JS.split]. pose proof (split_not_nil s) as Hn.
  destruct (N.eqb c newline) eqn:E.
  - apply N.eqb_eq in E. subst c.
    destruct (JS.split s) as [|l ls]; [contradiction|].
    change (removelast ([] :: l :: ls)) with ([] :: removelast (l :: ls)).
    change (last ([] :: l :: ls) []) with (last (l :: ls) (@nil char)).
    cbn [map List.concat app]. f_equal. exact IH.
  - destruct (JS.split s) as [|l ls]; [contradiction|].
    destruct ls as [|l' ls].
    + cbn [removelast last map List.concat app] in *. f_equal. exact IH.
    + change (removelast ((c :: l) :: l' :: ls))
        with ((c :: l) :: removelast (l' :: ls)).
      change (removelast (l :: l' :: ls))
        with (l :: removelast (l' :: ls)) in IH.
      change (last ((c :: l) :: l' :: ls) []) with (last (l' :: ls) (@nil char)).
      change (last (l :: l' :: ls) []) with (last (l' :: ls) (@nil char)) in IH.
      cbn [map List.concat app] in *. f_equal. exact IH.
Qed.

End LineReader.

(** C3. However a stream is cut into chunks, the calls the line reader makes
    are those for the segments of the whole stream split on newlines, the
    last segment left out, each stripped on its own; the last segment, which
    no newline closes, stays in the buffer and is not handed over; the
    original lines, each closed by a newline, followed by the buffer are the
    stream. *)
Theorem onLine_chunking_invariant (chunks : list str) :
  let stream := List.concat chunks in
  fst (onLine chunks) = map call_of (removelast (JS.split stream))
  /\ snd (onLine chunks) = last (JS.split stream) []
  /\ List.concat (map (fun c => snd c ++ [newline]) (fst (onLine chunks)))
       ++ snd (onLine chunks) = stream.
Proof.
  cbn zeta. rewrite onLine_split. cbn [fst snd]. repeat split.
  rewrite map_map. cbn [call_of snd]. apply join_split.
Qed.

(* ================================================================== *)
(** ** What the ANSI pattern removes *)

Section Matcher.

(** What a match leaves over is a suffix of the input, and it is what the
    continuation accepted. *)
Lemma exec_suffix (r : regex) : forall (s : str) (k : str -> option str) (x : str),
  exec r s k = Some x -> exists pre s1, s = pre ++ s1 /\ k s1 = Some x.
Proof.
  induction r as [p| |a IHa b IHb|a IHa b IHb|a IHa]; intros s k x H.
  - destruct s as [|c s]; [discriminate|]. cbn [exec] in H.
    destruct (p c); [|discriminate]. exists [c], s. split; [reflexivity|exact H].
  - exists [], s. split; [reflexivity|exact H].
  - cbn [exec] in H. apply IHa in H. destruct H as (pre & s1 & -> & H).
    apply IHb in H. destruct H as (pre' & s2 & -> & H).
    exists (pre ++ pre'), s2. rewrite app_assoc. split; [reflexivity|exact H].
  - cbn [exec] in H. destruct (exec a s k) eqn:E.
    + injection H as <-. apply IHa in E. exact E.
    + apply IHb in H. exact H.
  - cbn [exec] in H. revert H. generalize (List.length s) as n. intros n.
    revert s. induction n as [|n IHn]; intros s H.
    + exists [], s. split; [reflexivity|exact H].
    + match type of H with
      | match ?e with _ => _ end = _ => destruct e eqn:E
      end.
      * injection H as <-. apply IHa in E. destruct E as (pre & s1 & -> & E).
        destruct (List.length s1 <? List.length (pre ++ s1)); [|discriminate].
        apply IHn in E. destruct E as (pre' & s2 & -> & E).
        exists (pre ++ pre'), s2. rewrite app_assoc. split; [reflexivity|exact E].
      * exists [], s. split; [reflexivity|exact H].
Qed.

Lemma exec_seq_class (p : char -> bool) (r : regex) (s : str)
    (k : str -> option str) :
  exec (Seq (Class p) r) s k
  = match s with
    | c :: s' => if p c then exec r s' k else None
    | [] => None
    end.
Proof. destruct s; reflexivity. Qed.

(** A match of [pattern] starts with an introducer and is not empty. *)
Lemma match_at_pattern (s rest : str) :
  match_at pattern s = Some rest ->
  exists c pre, s = c :: pre ++ rest /\ introducer c = true.
Proof.
  unfold match_at, pattern. rewrite exec_seq_class.
  destruct s as [|c s]; [discriminate|].
  destruct (introducer c) eqn:E; [|discriminate].
  intros H. apply exec_suffix in H. destruct H as (pre & s1 & -> & H).
  injection H as ->. exists c, pre. split; [reflexivity | exact E].
Qed.

Lemma delete_from_clean : forall (s : str) (skip : nat),
  well_escaped s = true ->
  Forall (fun c => introducer c = false) (delete_from pattern skip s).
Proof.
  induction s as [|c s IH]; intros skip H; [constructor|].
  cbn [well_escaped] in H. apply andb_true_iff in H. destruct H as [Hc Hs].
  cbn [delete_from]. destruct skip as [|skip]; [|apply IH, Hs].
  destruct (match_at pattern (c :: s)) as [rest|] eqn:E.
  - apply match_at_pattern in E. destruct E as (c' & pre & E & _).
    rewrite E. cbn [List.length]. rewrite length_app.
    replace (S (List.length pre + List.length rest) - List.length rest)
      with (S (List.length pre)) by lia.
    apply IH, Hs.
  - rewrite orb_false_r in Hc. apply negb_true_iff in Hc.
    constructor; [exact Hc | apply IH, Hs].
Qed.

(** A line whose introducers all start a match is stripped of them. *)
Lemma strip_clean (line : str) :
  well_escaped line = true -> Forall (fun c => introducer c = false) (strip line).
Proof. apply delete_from_clean. Qed.

(** A line without introducer is left as it is. *)
Lemma strip_plain (line : str) :
  Forall (fun c => introducer c = false) line -> strip line = line.
Proof.
  unfold strip, delete_all. induction 1 as [|c s Hc Hs IH]; [reflexivity|].
  cbn [delete_from]. destruct (match_at pattern (c :: s)) as [rest|] eqn:E.
  - apply match_at_pattern in E. destruct E as (c' & pre & E & Hi).
    injection E as <- _. congruence.
  - f_equal. exact IH.
Qed.

(** What a match consumes lies within the classes of the pattern. *)
Lemma exec_within (q : char -> bool) (r : regex) :
  classes_within q r ->
  forall (s : str) (k : str -> option str) (x : str),
    exec r s k = Some x ->
    exists pre s1, s = pre ++ s1 /\ k s1 = Some x
                   /\ Forall (fun c => q c = true) pre.
Proof.
  induction r as [p| |a IHa b IHb|a IHa b IHb|a IHa]; intros Hq s k x H.
  - destruct s as [|c s]; [discriminate|]. cbn [exec] in H.
    destruct (p c) eqn:E; [|discriminate]. exists [c], s.
    repeat split; [exact H|]. constructor; [apply Hq, E | constructor].
  - exists [], s. repeat split; [exact H | constructor].
  - destruct Hq as [Ha Hb]. cbn [exec] in H. apply (IHa Ha) in H.
    destruct H as (pre & s1 & -> & H & Hp). apply (IHb Hb) in H.
    destruct H as (pre' & s2 & -> & H & Hp').
    exists (pre ++ pre'), s2. rewrite app_assoc.
    repeat split; [exact H|]. apply Forall_app. split; assumption.
  - destruct Hq as [Ha Hb]. cbn [exec] in H. destruct (exec a s k) eqn:E.
    + injection H as <-. apply (IHa Ha) in E. exact E.
    + apply (IHb Hb) in H. exact H.
  - cbn [classes_within] in Hq. cbn [exec] in H. revert H.
    generalize (List.length s) as n. intros n.
    revert s. induction n as [|n IHn]; intros s H.
    + exists [], s. repeat split; [exact H | constructor].
    + match type of H with
      | match ?e with _ => _ end = _ => destruct e eqn:E
      end.
      * injection H as <-. apply (IHa Hq) in E.
        destruct E as (pre & s1 & -> & E & Hp).
        destruct (List.length s1 <? List.length (pre ++ s1)); [|discriminate].
        apply IHn in E. destruct E as (pre' & s2 & -> & E & Hp').
        exists (pre ++ pre'), s2. rewrite app_assoc.
        repeat split; [exact E|]. apply Forall_app. split; assumption.
      * exists [], s. repeat split; [exact H | constructor].
Qed.

(** A class that holds neither introducer holds no introducer. *)
Lemma class_plain (p : char -> bool) :
  p 27%N = false -> p 155%N = false ->
  forall c : char, p c = true -> negb (introducer c) = true.
Proof.
  intros H1 H2 c H. unfold introducer.
  destruct (N.eqb_spec c 27) as [->|_]; [congruence|].
  destruct (N.eqb_spec c 155) as [->|_]; [congruence|]. reflexivity.
Qed.

Lemma pattern_body_plain :
  classes_within (fun c => negb (introducer c)) pattern_body.
Proof.
  cbv [pattern_body bell_form final_form semicolon Opt Rep1 Upto
       classes_within].
  repeat split; apply class_plain; reflexivity.
Qed.

(** A match of [pattern] holds one introducer, its first code unit. *)
Lemma match_at_pattern_body (s rest : str) :
  match_at pattern s = Some rest ->
  exists c pre, s = c :: pre ++ rest /\ introducer c = true
                /\ Forall (fun c => introducer c = false) pre.
Proof.
  unfold match_at. change pattern with (Seq (Class introducer) pattern_body).
  rewrite exec_seq_class. destruct s as [|c s]; [discriminate|].
  destruct (introducer c) eqn:E; [|discriminate].
  intros H. apply (@exec_within _ _ pattern_body_plain) in H.
  destruct H as (pre & s1 & -> & H & Hp). injection H as ->.
  exists c, pre. repeat split; [exact E|].
  apply (Forall_impl _ (P := fun c => negb (introducer c) = true));
    [|exact Hp].
  intros a Ha. apply negb_true_iff, Ha.
Qed.

(** Deleting the matches keeps the introducers at which none starts, and
    only them; the code units still to skip are inside a match. *)
Lemma delete_from_unmatched : forall (s : str) (skip : nat),
  Forall (fun c => introducer c = false) (firstn skip s) ->
  introducers (delete_from pattern skip s) = unmatched s.
Proof.
  induction s as [|c s IH]; intros skip H; [reflexivity|].
  cbn [delete_from unmatched]. destruct skip as [|skip].
  - destruct (match_at pattern (c :: s)) as [rest|] eqn:E.
    + apply match_at_pattern_body in E.
      destruct E as (c' & pre & E & Hi & Hp). injection E as <- ->.
      cbn [List.length]. rewrite length_app.
      replace (S (List.length pre + List.length rest) - List.length rest)
        with (S (List.length pre)) by lia.
      cbn [is_some negb]. rewrite andb_false_r. cbn [Nat.add].
      apply IH. rewrite firstn_app, Nat.sub_diag, firstn_all.
      cbn [firstn]. rewrite app_nil_r. exact Hp.
    + cbn [is_some negb]. rewrite andb_true_r.
      unfold introducers. cbn [filter].
      destruct (introducer c); cbn [List.length Nat.add]; f_equal;
        apply (IH 0); constructor.
  - cbn [firstn] in H. inversion H as [|? ? Hc Hs]; subst.
    rewrite Hc. cbn [andb Nat.add]. apply IH, Hs.
Qed.

Lemma strip_unmatched (line : str) :
  introducers (strip line) = unmatched line.
Proof. apply (delete_from_unmatched line 0). constructor. Qed.

Lemma unmatched_dirty (s : str) :
  well_escaped s = false -> 0 < unmatched s.
Proof.
  induction s as [|c s IH]; [discriminate|].
  cbn [well_escaped unmatched]. intros H.
  apply andb_false_iff in H. destruct H as [H|H].
  - apply orb_false_iff in H. destruct H as [Hc Hm].
    apply negb_false_iff in Hc. rewrite Hc, Hm. cbn. lia.
  - apply IH in H. lia.
Qed.

Lemma introducers_In (s : str) :
  0 < introducers s -> exists c, In c s /\ introducer c = true.
Proof.
  unfold introducers. induction s as [|c s IH]; cbn [filter List.length];
    [lia|].
  destruct (introducer c) eqn:E.
  - intros _. exists c. split; [left; reflexivity | exact E].
  - intros H. destruct (IH H) as (c' & Hin & Hc).
    exists c'. split; [right; exact Hin | exact Hc].
Qed.

End Matcher.

Example strip_sgr :
  strip (lit "ab" ++ esc :: lit "[1;31mred" ++ esc :: lit "[0m.")
  = lit "abred.".
Proof. vm_compute. reflexivity. Qed.

Example strip_title :
  strip (esc :: lit "]0;title" ++ 7%N :: lit "x") = lit "x".
Proof. vm_compute. reflexivity. Qed.

Example strip_c1 : strip (155%N :: lit "2Kdone") = lit "done".
Proof. vm_compute. reflexivity. Qed.

Example strip_lone : strip (lit "a" ++ esc :: lit " b") = lit "a" ++ esc :: lit " b".
Proof. vm_compute. reflexivity. Qed.

(** C4, the claim as the specification states it, fails: a line made of a
    lone escape character reaches the callback with the escape in place. *)
Lemma stripped_lines_escape_free_fails : ~ stripped_lines_escape_free.
Proof.
  intros H. apply (H [[esc; newline]] [esc] [esc]).
  - vm_compute. left. reflexivity.
  - left. reflexivity.
Qed.

(** C4, amended. Each call of the callback gets a line of the stream as it
    was written, and next to it that line with the matches of the ANSI
    pattern deleted. The stripped line keeps the introducers (U+001B or
    U+009B) of the line at which no match of the pattern starts, and only
    them: when every introducer of the line starts a match the stripped line
    holds no introducer, and when one starts none the stripped line holds an
    introducer. *)
Theorem onLine_callback_arguments (chunks : list str) (stripped original : str) :
  In (stripped, original) (fst (onLine chunks)) ->
  In original (removelast (JS.split (List.concat chunks)))
  /\ stripped = strip original
  /\ (well_escaped original = true ->
      Forall (fun c => introducer c = false) stripped)
  /\ introducers stripped = unmatched original
  /\ (well_escaped original = false ->
      exists c, In c stripped /\ introducer c = true).
Proof.
  rewrite onLine_split. cbn [fst]. intros H. apply in_map_iff in H.
  destruct H as (l & E & H). injection E as <- <-.
  split; [exact H|]. split; [reflexivity|]. split; [apply strip_clean|].
  split; [apply strip_unmatched|].
  intros Hw. apply introducers_In. rewrite strip_unmatched.
  apply unmatched_dirty, Hw.
Qed.

Lemma onLine_callback_arguments_witness :
  In (lit "abred", sample_line) (fst (onLine sample_chunks))
  /\ well_escaped sample_line = true
  /\ Forall (fun c => introducer c = false) (lit "abred")
  /\ well_escaped [esc] = false
  /\ exists c, In c [esc] /\ introducer c = true.
Proof.
  assert (Hin : In (lit "abred", sample_line) (fst (onLine sample_chunks)))
    by (vm_compute; left; reflexivity).
  assert (Hw : well_escaped sample_line = true) by (vm_compute; reflexivity).
  assert (Hin' : In ([esc], [esc]) (fst (onLine [[esc; newline]])))
    by (vm_compute; left; reflexivity).
  assert (Hw' : well_escaped [esc] = false) by (vm_compute; reflexivity).
  split; [exact Hin | split; [exact Hw | split; [|split; [exact Hw'|]]]].
  - exact (proj1 (proj2 (proj2 (onLine_callback_arguments
                     sample_chunks (lit "abred") sample_line Hin))) Hw).
  - exact (proj2 (proj2 (proj2 (proj2 (onLine_callback_arguments
                     [[esc; newline]] [esc] [esc] Hin')))) Hw').
Defined.

(* ================================================================== *)
(** ** The monad *)

Section MonadLaws.

Lemma bind_assoc {A B C} (m : M A) (f : A -> M B) (g : B -> M C) (st : state) :
  bind (bind m f) g st = bind m (fun a => bind (f a) g) st.
Proof.
  unfold bind. destruct (m st) as [t [a st'|e st'|c st']]; try reflexivity.
  destruct (f a st') as [t1 [b st1|e st1|c st1]]; try reflexivity.
  destruct (g b st1) as [t2 r]. rewrite app_assoc. reflexivity.
Qed.

Lemma for_each_app {A} (f : A -> M unit) (l1 l2 : list A) (st : state) :
  for_each (l1 ++ l2) f st = bind (for_each l1 f) (fun _ => for_each l2 f) st.
Proof.
  revert st. induction l1 as [|a l1 IH]; intros st.
  - cbn [for_each app]. unfold bind, ret.
    destruct (for_each l2 f st). reflexivity.
  - cbn [for_each app]. rewrite bind_assoc. unfold bind.
    destruct (f a st) as [t [[] st'|e st'|c st']]; try reflexivity.
    rewrite IH. unfold bind. reflexivity.
Qed.

Lemma patches_app (t1 t2 : list effect) :
  patches (t1 ++ t2) = patches t1 + patches t2.
Proof. unfold patches. rewrite filter_app, length_app. reflexivity. Qed.

Lemma bind_Ret {A B} (m : M A) (f : A -> M B) (st st' : state)
    (t : list effect) (a : A) :
  m st = (t, Ret a st') ->
  bind m f st = (t ++ fst (f a st'), snd (f a st')).
Proof. intros E. unfold bind. rewrite E. destruct (f a st'). reflexivity. Qed.

Lemma bind_Exit {A B} (m : M A) (f : A -> M B) (st st' : state)
    (t : list effect) (c : Z) :
  m st = (t, Exit c st') -> bind m f st = (t, Exit c st').
Proof. intros E. unfold bind. rewrite E. reflexivity. Qed.

End MonadLaws.

Arguments bind_Ret {A B m} f {st st' t a} _.
Arguments bind_Exit {A B m} f {st st' t c} _.

(* ================================================================== *)
(** ** The trigger of the VS Code watcher *)

Section VscodeTrigger.

Variable h : host.

Lemma vscode_line_eq (line original : str) (st : state) :
  vscode_line h line original st
  = (ConsoleLog [lit "[vscode]"; original]
       :: (if arming st line then []
           else if firing h st line then [Exec (lit "yarn patch:generate")]
           else []),
     Ret tt (if arming st line then set_startingVscode true st else st)).
Proof.
  unfold vscode_line, arming, firing, bind, emit, gets, modify, ret.
  cbn [app]. destruct (negb (startingVscode st) && _); [reflexivity|].
  destruct (startingVscode st && _ && _); reflexivity.
Qed.

Lemma vscode_lines_cons (c : str * str) (calls : list (str * str)) (st : state) :
  vscode_lines h (c :: calls) st
  = let r := vscode_lines h calls
               (if arming st (fst c) then set_startingVscode true st else st) in
    ((ConsoleLog [lit "[vscode]"; snd c]
        :: (if arming st (fst c) then []
            else if firing h st (fst c) then [Exec (lit "yarn patch:generate")]
            else [])) ++ fst r,
     snd r).
Proof.
  unfold vscode_lines. cbn [for_each]. unfold bind at 1.
  rewrite vscode_line_eq. cbn zeta.
  destruct (for_each calls _ _). reflexivity.
Qed.

(** Before the arming line nothing is started and the flag stays down. *)
Lemma vscode_lines_unarmed (pre : list (str * str)) : forall st : state,
  startingVscode st = false ->
  forallb (fun c => negb (arms c)) pre = true ->
  exists t, vscode_lines h pre st = (t, Ret tt st) /\ patches t = 0.
Proof.
  induction pre as [|c pre IH]; intros st Hst Hpre.
  - exists []. split; reflexivity.
  - cbn [forallb] in Hpre. apply andb_true_iff in Hpre.
    destruct Hpre as [Hc Hpre]. apply negb_true_iff in Hc. unfold arms in Hc.
    rewrite vscode_lines_cons. unfold arming, firing. rewrite Hst, Hc.
    cbn [negb andb]. cbn zeta.
    destruct (IH st Hst Hpre) as (t & -> & Ht).
    eexists. split; [reflexivity|]. exact Ht.
Qed.

(** Once the flag is up it stays up, and every line with the finished
    marker starts the patch command. *)
Lemma vscode_lines_armed (post : list (str * str)) : forall st : state,
  startingVscode st = true ->
  exists t, vscode_lines h post st = (t, Ret tt st)
    /\ patches t = if truthy_opt (env_AUTO_PATCH h)
                   then List.length (filter finished post) else 0.
Proof.
  induction post as [|c post IH]; intros st Hst.
  - exists []. split; [reflexivity|]. destruct (truthy_opt _); reflexivity.
  - rewrite vscode_lines_cons. unfold arming, firing. rewrite Hst.
    cbn [negb andb]. cbn zeta.
    destruct (IH st Hst) as (t & -> & Ht).
    eexists. split; [reflexivity|]. cbn [fst filter]. unfold finished at 1.
    destruct (truthy_opt (env_AUTO_PATCH h)).
    + rewrite andb_true_r. destruct (includes (fst c) _); cbn [app].
      * change (patches (ConsoleLog ?a :: Exec ?b :: t)) with (S (patches t)).
        rewrite Ht. reflexivity.
      * exact Ht.
    + rewrite andb_false_r. exact Ht.
Qed.

End VscodeTrigger.

(** C2, the claim as the specification states it, fails: after the arming
    line, two lines with the finished marker start the patch command
    twice. *)
Lemma auto_patch_at_most_once_fails : ~ auto_patch_at_most_once.
Proof.
  intros H.
  specialize (H linux_host
    [lit "Starting watch-client" ++ newline :: lit "Finished compilation"
       ++ newline :: lit "Finished compilation" ++ [newline]]
    eq_refl).
  vm_compute in H. lia.
Qed.

(** C2, amended. With AUTO_PATCH set and the flag down, over lines of which
    [arm] is the first with the arming marker, the patch command is started
    once for every later line with the finished marker, so N times for N
    such lines, and never for an earlier line; the flag is up at the end. *)
Theorem auto_patch_fires_per_finished_line (h : host) (st : state)
    (pre post : list (str * str)) (arm : str * str) :
  truthy_opt (env_AUTO_PATCH h) = true ->
  startingVscode st = false ->
  forallb (fun c => negb (arms c)) pre = true ->
  arms arm = true ->
  let r := vscode_lines h (pre ++ arm :: post) st in
  patches (trace r) = List.length (filter finished post)
  /\ startingVscode (final r) = true
  /\ exit_code r = None.
Proof.
  intros Hap Hst Hpre Harm. cbn zeta. unfold vscode_lines.
  rewrite for_each_app. fold (vscode_lines h pre).
  fold (vscode_lines h (arm :: post)). unfold bind.
  destruct (vscode_lines_unarmed h pre st Hst Hpre) as (t & -> & Ht).
  rewrite vscode_lines_cons. unfold arming. unfold arms in Harm.
  rewrite Hst, Harm. cbn [negb andb]. cbn zeta.
  destruct (vscode_lines_armed h post (set_startingVscode true st) eq_refl)
    as (t' & -> & Ht').
  rewrite Hap in Ht'. unfold trace, final, exit_code. cbn [fst snd].
  rewrite patches_app. cbn [app]. rewrite Ht.
  change (patches (ConsoleLog ?a :: t')) with (patches t').
  repeat split. exact Ht'.
Qed.

Lemma auto_patch_fires_per_finished_line_witness :
  patches (trace (vscode_lines linux_host
     ([(lit "Finished compilation", lit "Finished compilation")]
      ++ (lit "Starting watch-client", lit "Starting watch-client")
      :: [(lit "Finished compilation", lit "Finished compilation");
          (lit "Starting watch-client", lit "Starting watch-client");
          (lit "Finished compilation", lit "Finished compilation")])
     (watching linux_host))) = 2.
Proof.
  exact (proj1 (auto_patch_fires_per_finished_line linux_host
    (watching linux_host)
    [(lit "Finished compilation", lit "Finished compilation")]
    [(lit "Finished compilation", lit "Finished compilation");
     (lit "Starting watch-client", lit "Starting watch-client");
     (lit "Finished compilation", lit "Finished compilation")]
    (lit "Starting watch-client", lit "Starting watch-client")
    eq_refl eq_refl eq_refl eq_refl)).
Defined.

(* ================================================================== *)
(** ** [cleanup] and the signals *)

Section Cleanup.

Variable h : host.

Lemma log_eq (message : str) (st : state) :
  log message false st = (log_trace st message, Ret tt st).
Proof. reflexivity. Qed.

Lemma cleanup_eq (code : option Z) (st : state) :
  cleanup code st
  = (log_trace st (lit "killing vs code watcher")
       ++ [RemoveAllListeners vscode; Kill vscode]
       ++ log_trace st (lit "killing tsc")
       ++ [RemoveAllListeners tsc; Kill tsc]
       ++ match server st with
          | Some p => log_trace st (lit "killing server")
                        ++ [RemoveAllListeners (server_proc p);
                            Kill (server_proc p)]
          | None => []
          end
       ++ log_trace st (lit "killing bundler")
       ++ [ProcessExit (or_zero code)],
     Exit (or_zero code) st).
Proof.
  cbv [cleanup bind log emit gets when process_exit ret negb].
  destruct (server st) as [p|]; reflexivity.
Qed.

Lemma lifecycle_cleanup (code : option Z) (st : state) :
  lifecycle (trace (cleanup code st))
  = teardown (server st) ++ [ProcessExit (or_zero code)].
Proof.
  rewrite cleanup_eq. unfold trace, teardown. cbn [fst].
  destruct (server st); reflexivity.
Qed.

End Cleanup.

(** C5. On SIGINT and on SIGTERM alike the script takes the listeners off
    the VS Code watcher and kills it, does the same to tsc, then to the
    server when there is one, and last exits with code 0. *)
Theorem signal_teardown_order (h : host) (st : state) :
  let order := teardown (server st) ++ [ProcessExit 0] in
  lifecycle (trace (turn h SIGINT st)) = order
  /\ exit_code (turn h SIGINT st) = Some 0%Z
  /\ lifecycle (trace (turn h SIGTERM st)) = order
  /\ exit_code (turn h SIGTERM st) = Some 0%Z.
Proof.
  cbn zeta. unfold turn. cbn [callback].
  rewrite (bind_Exit _ (cleanup_eq None st)), <- cleanup_eq.
  rewrite lifecycle_cleanup. unfold exit_code. rewrite cleanup_eq.
  repeat split.
Qed.

(** C7, the claim as the specification states it, fails: when the VS Code
    watcher exits with code 0 the script exits with code 0. *)
Lemma watcher_exit_fails_run_fails : ~ watcher_exit_fails_run.
Proof.
  intros H.
  destruct (H linux_host (watching linux_host) (Some 0%Z)) as [H1 _].
  vm_compute in H1. discriminate H1.
Qed.

(** C7, amended. When the VS Code watcher or tsc exits, the script logs
    that it terminated unexpectedly, runs [cleanup] with the exit code of
    the child, and so exits with that code, with 0 when the child has none. *)
Theorem watcher_exit_passes_code_on (h : host) (st : state) (code : option Z) :
  let exit_with := match code with Some c => c | None => 0%Z end in
  turn h (vscode_exit code) st
  = (log_trace st (lit "vs code watcher terminated unexpectedly")
       ++ trace (cleanup code st),
     Exit exit_with st)
  /\ turn h (tsc_exit code) st
     = (log_trace st (lit "tsc terminated unexpectedly")
          ++ trace (cleanup code st),
        Exit exit_with st).
Proof.
  cbn zeta.
  assert (Ez : or_zero code = match code with Some c => c | None => 0%Z end).
  { destruct code as [c|]; [|reflexivity]. unfold or_zero.
    destruct (Z.eqb_spec c 0); congruence. }
  rewrite <- Ez. unfold turn. cbn [callback].
  split.
  - erewrite bind_Exit; [reflexivity|].
    erewrite bind_Ret by apply log_eq. rewrite cleanup_eq. reflexivity.
  - erewrite bind_Exit; [reflexivity|].
    erewrite bind_Ret by apply log_eq. rewrite cleanup_eq. reflexivity.
Qed.

(* ================================================================== *)
(** ** [restartServer] *)

Section RestartServer.

Lemma restartServer_eq (st : state) :
  restartServer st
  = (kill_old (server st)
       ++ [Fork (next_pid st);
           ConsoleLog [lit "[server] spawned process " ++ of_nat (next_pid st)]],
     Ret tt (set_server (Some (next_pid st))
               (set_live (next_pid st :: live st)
                  (set_next_pid (S (next_pid st)) st)))).
Proof.
  cbv [restartServer bind emit gets fork modify ret].
  destruct (server st); reflexivity.
Qed.

Lemma forks_app (t1 t2 : list effect) : forks (t1 ++ t2) = forks t1 + forks t2.
Proof. unfold forks. rewrite filter_app, length_app. reflexivity. Qed.

Lemma forks_restartServer (st : state) : forks (fst (restartServer st)) = 1.
Proof. rewrite restartServer_eq. destruct (server st); reflexivity. Qed.

(** [n] queued restarts fork [n] servers and leave the promise and the
    queue alone. *)
Lemma times_restartServer (n : nat) : forall st : state,
  exists t st', times n restartServer st = (t, Ret tt st')
    /\ forks t = n /\ jobs st' = jobs st /\ bundle st' = bundle st.
Proof.
  induction n as [|n IH]; intros st.
  - exists [], st. repeat split.
  - cbn [times]. rewrite (bind_Ret _ (restartServer_eq st)).
    destruct (IH (set_server (Some (next_pid st))
                    (set_live (next_pid st :: live st)
                       (set_next_pid (S (next_pid st)) st))))
      as (t & st' & -> & Ht & Hj & Hb).
    cbn [fst snd]. eexists _, st'. split; [reflexivity|].
    rewrite forks_app, Ht. split; [|split; assumption].
    pose proof (forks_restartServer st) as E. rewrite restartServer_eq in E.
    cbn [fst] in E. rewrite E. reflexivity.
Qed.

End RestartServer.

(** C1, the claim as the specification states it, fails: after two lines
    of tsc that ask for a restart, both forked servers are still to exit. *)
Lemma servers_never_overlap_fails : ~ servers_never_overlap.
Proof.
  intros H.
  specialize (H linux_host
    [bundle_fulfilled;
     tsc_stdout (lit "Watching for file changes" ++ newline ::
                 lit "Watching for file changes" ++ [newline])]).
  vm_compute in H. lia.
Qed.

(** C1, amended. [restartServer] sends the kill signal to the server it
    holds, if any, and forks the replacement at once, in the same call and
    without waiting for the old process to exit; it then holds the new
    server only. Two calls in a row leave both forked servers among the
    processes whose exit is still to come. *)
Theorem restartServer_kills_then_forks (st : state) :
  let n := next_pid st in
  let spawned (p : pid) :=
    ConsoleLog [lit "[server] spawned process " ++ of_nat p] in
  let r := restartServer st in
  let r2 := (restartServer ;; restartServer) st in
  trace r = kill_old (server st) ++ [Fork n; spawned n]
  /\ server (final r) = Some n
  /\ live (final r) = n :: live st
  /\ exit_code r = None
  /\ trace r2 = kill_old (server st)
                ++ [Fork n; spawned n; Kill (server_proc n);
                    Fork (S n); spawned (S n)]
  /\ server (final r2) = Some (S n)
  /\ live (final r2) = S n :: n :: live st.
Proof.
  cbn zeta. rewrite (bind_Ret _ (restartServer_eq st)).
  rewrite !restartServer_eq. unfold trace, final, exit_code. cbn [fst snd].
  repeat split. rewrite <- app_assoc. reflexivity.
Qed.

(* ================================================================== *)
(** ** The trigger of the TypeScript watcher *)

Section TscTrigger.

Variable h : host.

Lemma tsc_line_eq (line original : str) (st : state) :
  tsc_line line original st
  = ((if negb (str_eqb line []) then [ConsoleLog [lit "[tsc]"; original]]
      else []),
     Ret tt (if includes line (lit "Watching for file changes")
             then match bundle st with
                  | Pending n => set_bundle (Pending (S n)) st
                  | Fulfilled => set_jobs (S (jobs st)) st
                  end
             else st)).
Proof.
  cbv [tsc_line bind when emit gets modify ret bundle_then_restartServer].
  destruct (negb (str_eqb line [])), (includes line _), (bundle st);
    reflexivity.
Qed.

(** While the promise is pending the lines of tsc fork nothing; each line
    with the marker adds one reaction to the promise. *)
Lemma tsc_lines_pending (calls : list (str * str)) : forall (st : state) (n : nat),
  bundle st = Pending n ->
  exists t st', tsc_lines calls st = (t, Ret tt st')
    /\ forks t = 0
    /\ bundle st' = Pending (n + List.length (filter watching_marker calls))
    /\ jobs st' = jobs st /\ server st' = server st.
Proof.
  induction calls as [|c calls IH]; intros st n Hb.
  - exists [], st. rewrite Nat.add_0_r. repeat split. exact Hb.
  - unfold tsc_lines. cbn [for_each].
    rewrite (bind_Ret _ (tsc_line_eq (fst c) (snd c) st)).
    fold (tsc_lines calls). cbn [filter]. unfold watching_marker at 1.
    destruct (includes (fst c) (lit "Watching for file changes")).
    + rewrite Hb.
      destruct (IH (set_bundle (Pending (S n)) st) (S n) eq_refl)
        as (t & st' & -> & Ht & Hb' & Hj & Hs).
      cbn [fst snd]. eexists _, st'. split; [reflexivity|].
      rewrite forks_app, Ht, Hb', Hj, Hs. cbn [List.length].
      rewrite Nat.add_succ_r. repeat split.
      destruct (negb (str_eqb (fst c) [])); reflexivity.
    + destruct (IH st n Hb) as (t & st' & -> & Ht & Hb' & Hj & Hs).
      cbn [fst snd]. eexists _, st'. split; [reflexivity|].
      rewrite forks_app, Ht. repeat split; try assumption.
      destruct (negb (str_eqb (fst c) [])); reflexivity.
Qed.

Lemma run_jobs_idle (st : state) :
  jobs st = 0 -> run_jobs st = ([], Ret tt (set_jobs 0 st)).
Proof.
  intros E. cbv [run_jobs bind gets modify ret]. rewrite E. reflexivity.
Qed.

(** The queued restarts are all run, and the queue is empty afterwards. *)
Lemma run_jobs_drains (st : state) :
  exists t st', run_jobs st = (t, Ret tt st')
    /\ forks t = jobs st /\ jobs st' = 0 /\ bundle st' = bundle st.
Proof.
  destruct (times_restartServer (jobs st) (set_jobs 0 st))
    as (t & st' & E & Ht & Hj & Hb).
  exists t, st'. split; [|repeat split; assumption].
  unfold run_jobs.
  rewrite (bind_Ret _ (eq_refl : gets jobs st = ([], Ret (jobs st) st))).
  rewrite (bind_Ret _ (eq_refl : modify (set_jobs 0) st
                                 = ([], Ret tt (set_jobs 0 st)))).
  rewrite E. reflexivity.
Qed.

Lemma on_data_tsc (d : str) (st : state) (n : nat) :
  bundle st = Pending n ->
  exists t st', callback h (tsc_stdout d) st = (t, Ret tt st')
    /\ forks t = 0
    /\ bundle st'
       = Pending (n + List.length
                        (filter watching_marker
                                (fst (onLine_data (tsc_buffer st) d))))
    /\ jobs st' = jobs st /\ server st' = server st.
Proof.
  intros Hb. cbn [callback]. unfold on_data.
  rewrite (bind_Ret _ (eq_refl : gets tsc_buffer st
                                 = ([], Ret (tsc_buffer st) st))).
  destruct (onLine_data (tsc_buffer st) d) as [calls b'].
  fold (tsc_lines calls).
  destruct (tsc_lines_pending calls st Hb) as (t & st' & E & Ht & Hb' & Hj & Hs).
  rewrite (bind_Ret _ E). cbn [fst snd app].
  exists (t ++ []), (set_tsc_buffer b' st'). split; [reflexivity|].
  rewrite app_nil_r. repeat split; assumption.
Qed.

End TscTrigger.

(* ================================================================== *)
(** ** The turns of the event loop *)

Section EventLoop.

Variable h : host.

Lemma vscode_lines_return (calls : list (str * str)) : forall st : state,
  exists t st', vscode_lines h calls st = (t, Ret tt st')
                /\ jobs st' = jobs st.
Proof.
  induction calls as [|c calls IH]; intros st.
  - exists [], st. split; reflexivity.
  - rewrite vscode_lines_cons. cbn zeta.
    destruct (IH (if arming st (fst c) then set_startingVscode true st else st))
      as (t & st' & -> & Hj).
    eexists _, st'. split; [reflexivity|]. rewrite Hj.
    destruct (arming st (fst c)); reflexivity.
Qed.

Lemma tsc_lines_return (calls : list (str * str)) : forall st : state,
  exists t st', tsc_lines calls st = (t, Ret tt st').
Proof.
  induction calls as [|c calls IH]; intros st.
  - exists [], st. reflexivity.
  - unfold tsc_lines. cbn [for_each].
    rewrite (bind_Ret _ (tsc_line_eq (fst c) (snd c) st)).
    fold (tsc_lines calls). cbn [snd].
    match goal with
    | |- context [tsc_lines calls ?s] => destruct (IH s) as (t & st' & ->)
    end.
    eexists _, st'. reflexivity.
Qed.

(** A callback returns or leaves the process; it does not throw. *)
Lemma callback_returns_or_exits (e : event) (st : state) :
  (exists t st', callback h e st = (t, Ret tt st'))
  \/ (exists t c st', callback h e st = (t, Exit c st')).
Proof.
  destruct e as [ | |code|code| | | |error|d|d|d|d|p|error stderr];
    cbn [callback].
  - right. rewrite cleanup_eq. eexists _, _, _. reflexivity.
  - right. rewrite cleanup_eq. eexists _, _, _. reflexivity.
  - right. rewrite (bind_Ret _ (log_eq _ st)), cleanup_eq.
    eexists _, _, _. reflexivity.
  - right. rewrite (bind_Ret _ (log_eq _ st)), cleanup_eq.
    eexists _, _, _. reflexivity.
  - left. cbv [bind gets modify ret]. destruct (bundle st);
      eexists _, _; reflexivity.
  - right. rewrite (bind_Ret _ (log_eq _ st)), cleanup_eq.
    eexists _, _, _. reflexivity.
  - left. eexists _, _. reflexivity.
  - left. eexists _, _. reflexivity.
  - left. eexists _, _. reflexivity.
  - left. eexists _, _. reflexivity.
  - left. unfold on_data.
    rewrite (bind_Ret _ (eq_refl : gets vscode_buffer st
                                   = ([], Ret (vscode_buffer st) st))).
    destruct (onLine_data (vscode_buffer st) d) as [calls b'].
    fold (vscode_lines h calls).
    destruct (vscode_lines_return calls st) as (t & st' & E & _).
    rewrite (bind_Ret _ E). eexists _, _. reflexivity.
  - left. unfold on_data.
    rewrite (bind_Ret _ (eq_refl : gets tsc_buffer st
                                   = ([], Ret (tsc_buffer st) st))).
    destruct (onLine_data (tsc_buffer st) d) as [calls b'].
    fold (tsc_lines calls).
    destruct (tsc_lines_return calls st) as (t & st' & E).
    rewrite (bind_Ret _ E). eexists _, _. reflexivity.
  - left. eexists _, _. reflexivity.
  - left. destruct error as [message|]; [|destruct (truthy stderr) eqn:E];
      cbv [when]; rewrite ?E; eexists _, _; reflexivity.
Qed.

(** A turn that does not leave the process leaves no job queued. *)
Lemma turn_returns_or_exits (e : event) (st : state) :
  (exists t st', turn h e st = (t, Ret tt st') /\ jobs st' = 0)
  \/ (exists t c st', turn h e st = (t, Exit c st')).
Proof.
  unfold turn.
  destruct (callback_returns_or_exits e st)
    as [(t & st1 & E)|(t & c & st1 & E)].
  - left. rewrite (bind_Ret _ E).
    destruct (run_jobs_drains st1) as (t' & st2 & -> & _ & Hj & _).
    eexists _, st2. split; [reflexivity | exact Hj].
  - right. rewrite (bind_Exit _ E). eexists _, _, _. reflexivity.
Qed.

(** Between two turns the queue of jobs is empty. *)
Lemma event_loop_returns_or_exits (events : list event) : forall st : state,
  jobs st = 0 ->
  (exists t st', event_loop h events st = (t, Ret tt st') /\ jobs st' = 0)
  \/ (exists t c st', event_loop h events st = (t, Exit c st')).
Proof.
  induction events as [|e events IH]; intros st Hj.
  - left. exists [], st. split; [reflexivity | exact Hj].
  - unfold event_loop. cbn [for_each]. fold (event_loop h events).
    destruct (turn_returns_or_exits e st)
      as [(t & st1 & E & Hj1)|(t & c & st1 & E)].
    + rewrite (bind_Ret _ E).
      destruct (IH st1 Hj1) as [(t' & st2 & -> & Hj2)|(t' & c & st2 & ->)].
      * left. eexists _, st2. split; [reflexivity | exact Hj2].
      * right. eexists _, _, _. reflexivity.
    + right. rewrite (bind_Exit _ E). eexists _, _, _. reflexivity.
Qed.

(** Once a turn has left the process the later events are not handled. *)
Lemma event_loop_stops_at_exit (events more : list event) (st st' : state)
    (t : list effect) (c : Z) :
  event_loop h events st = (t, Exit c st') ->
  event_loop h (events ++ more) st = (t, Exit c st').
Proof.
  intros E. unfold event_loop in *. rewrite for_each_app.
  apply (bind_Exit _ E).
Qed.

End EventLoop.

(** C10, amended. A line of tsc with the marker that arrives while
    [bundle], the promise of the one call of bundler.bundle() that [watch]
    makes, is pending restarts nothing: it adds one reaction to the promise.
    When the promise is fulfilled, the server is restarted once for each
    such line, and nothing is left queued. *)
Theorem restart_waits_for_bundle (h : host) (st : state) (d : str) (n : nat) :
  bundle st = Pending n ->
  jobs st = 0 ->
  let k := List.length (filter watching_marker
                               (fst (onLine_data (tsc_buffer st) d))) in
  let r := turn h (tsc_stdout d) st in
  let r' := turn h bundle_fulfilled (final r) in
  forks (trace r) = 0
  /\ exit_code r = None
  /\ server (final r) = server st
  /\ bundle (final r) = Pending (n + k)
  /\ jobs (final r) = 0
  /\ forks (trace r') = n + k
  /\ exit_code r' = None
  /\ bundle (final r') = Fulfilled
  /\ jobs (final r') = 0.
Proof.
  intros Hb Hj. cbn zeta.
  destruct (on_data_tsc h d st Hb) as (t & st1 & E & Ht & Hb1 & Hj1 & Hs1).
  assert (Er : turn h (tsc_stdout d) st = (t, Ret tt (set_jobs 0 st1))).
  { unfold turn. rewrite (bind_Ret _ E).
    rewrite run_jobs_idle by congruence. cbn [fst snd].
    rewrite app_nil_r. reflexivity. }
  rewrite Er. unfold trace at 1, exit_code at 1, final. cbn [fst snd].
  repeat (split; [first [assumption | reflexivity]|]).
  set (st2 := set_jobs 0 st1).
  assert (Ec : callback h bundle_fulfilled st2
               = ([], Ret tt (set_jobs (jobs st2 + (n + List.length
                    (filter watching_marker
                       (fst (onLine_data (tsc_buffer st) d)))))
                    (set_bundle Fulfilled st2)))).
  { cbv [callback bind gets modify ret]. unfold st2 at 1.
    change (bundle (set_jobs 0 st1)) with (bundle st1). rewrite Hb1.
    reflexivity. }
  destruct (run_jobs_drains
              (set_jobs (jobs st2 + (n + List.length
                    (filter watching_marker
                       (fst (onLine_data (tsc_buffer st) d)))))
                 (set_bundle Fulfilled st2)))
    as (t' & st3 & E' & Ht' & Hj' & Hb').
  unfold turn. rewrite (bind_Ret _ Ec), E'.
  unfold trace, exit_code. cbn [fst snd app].
  repeat split; assumption.
Qed.

Lemma restart_waits_for_bundle_witness :
  let st := watching linux_host in
  let d := lit "Watching for file changes." ++ [newline] in
  forks (trace (turn linux_host (tsc_stdout d) st)) = 0
  /\ forks (trace (turn linux_host bundle_fulfilled
                     (final (turn linux_host (tsc_stdout d) st)))) = 1.
Proof.
  pose proof (restart_waits_for_bundle linux_host (watching linux_host)
                (lit "Watching for file changes." ++ [newline]) (n := 0)
                eq_refl eq_refl) as H.
  cbn zeta in H. destruct H as (H0 & _ & _ & _ & _ & H1 & _).
  split; [exact H0 | exact H1].
Defined.

(* ================================================================== *)
(** ** [target] *)

Lemma includes_nil (needle : str) :
  truthy needle = true -> includes [] needle = false.
Proof. destruct needle; [discriminate | reflexivity]. Qed.

(** The first call of [target], by the three cases of the host. *)
Lemma target_first_call (h : host) (st : state) :
  _target st = None ->
  target h st
  = if host_is_darwin h then
      ([], Ret darwin (set_target (Some darwin) st))
    else if probe_mentions_musl h then
      ([Exec (lit "ldd --version")], Ret alpine (set_target (Some alpine) st))
    else
      ([Exec (lit "ldd --version")], Ret linux (set_target (Some linux) st)).
Proof.
  intros E. cbv [target bind gets modify emit ret]. rewrite E.
  destruct (host_is_darwin h); [reflexivity|].
  unfold probe_mentions_musl, ldd_result.
  destruct (ldd_version h) as [out err|message]; cbn [fst snd].
  - rewrite (orb_comm (includes out _)).
    destruct (includes err _ || includes out _); reflexivity.
  - rewrite (includes_nil (lit "musl") eq_refl), orb_false_r.
    destruct (includes message _); reflexivity.
Qed.

(** C8. On the first call of [target]: a Darwin host gives "darwin" and
    the probe is not run; on another host the probe is run, and the answer
    is "alpine" when an output of the probe, or the message of its error when
    it failed, mentions musl, and "linux" when none does. *)
Theorem target_resolution (h : host) (st : state) :
  _target st = None ->
  target h st
  = if host_is_darwin h then
      ([], Ret darwin (set_target (Some darwin) st))
    else if probe_mentions_musl h then
      ([Exec (lit "ldd --version")], Ret alpine (set_target (Some alpine) st))
    else
      ([Exec (lit "ldd --version")], Ret linux (set_target (Some linux) st)).
Proof. exact (target_first_call h st). Qed.

Lemma target_resolution_witness :
  target alpine_host new_Builder
  = ([Exec (lit "ldd --version")],
     Ret alpine (set_target (Some alpine) new_Builder))
  /\ target linux_host new_Builder
     = ([Exec (lit "ldd --version")],
        Ret linux (set_target (Some linux) new_Builder))
  /\ target darwin_host new_Builder
     = ([], Ret darwin (set_target (Some darwin) new_Builder)).
Proof.
  split; [|split].
  - exact (target_resolution alpine_host new_Builder eq_refl).
  - exact (target_resolution linux_host new_Builder eq_refl).
  - exact (target_resolution darwin_host new_Builder eq_refl).
Defined.

(* ================================================================== *)
(** ** [run] with a task it does not know *)

Section BadTask.

Variable h : host.

Lemma ensureArgument_eq (name arg : str) (st : state) :
  truthy arg = true ->
  ensureArgument name (Some arg) st
  = (log_trace st (name ++ lit " is " ++ quoted arg), Ret arg st).
Proof.
  intros E. cbv [ensureArgument truthy_opt or_else]. rewrite E. cbn [negb].
  rewrite (bind_Ret _ (log_eq _ st)). cbn [fst snd ret]. rewrite app_nil_r.
  reflexivity.
Qed.

(** [target] returns, starts at most the probe, and leaves the task as it
    is. *)
Lemma target_returns (st : state) :
  exists t tg st', target h st = (t, Ret tg st')
    /\ currentTask st' = currentTask st
    /\ pipelines t = []
    /\ children t = match _target st with
                    | Some _ => []
                    | None => if host_is_darwin h then []
                              else [Exec (lit "ldd --version")]
                    end.
Proof.
  destruct (_target st) as [tg|] eqn:E.
  - exists [], tg, st. cbv [target bind gets ret]. rewrite E. repeat split.
  - rewrite (target_first_call h st E).
    destruct (host_is_darwin h); [|destruct (probe_mentions_musl h)];
      eexists _, _, _; repeat split.
Qed.

Lemma truthy_Target_str (tg : Target) : truthy (Target_str tg) = true.
Proof. destruct tg; reflexivity. Qed.

Lemma bind_Throw {A B} (m : M A) (f : A -> M B) (st st' : state)
    (t : list effect) (e : str) :
  m st = (t, Throw e st') -> bind m f st = (t, Throw e st').
Proof. intros E. unfold bind. rewrite E. reflexivity. Qed.

Lemma children_app (t1 t2 : list effect) :
  children (t1 ++ t2) = children t1 ++ children t2.
Proof. apply filter_app. Qed.

Lemma pipelines_app (t1 t2 : list effect) :
  pipelines (t1 ++ t2) = pipelines t1 ++ pipelines t2.
Proof. apply filter_app. Qed.

Lemma children_log_trace (st : state) (message : str) :
  children (log_trace st message) = [].
Proof. reflexivity. Qed.

Lemma pipelines_log_trace (st : state) (message : str) :
  pipelines (log_trace st message) = [].
Proof. reflexivity. Qed.

(** [doRun] on a task that is none of the four throws after it has
    resolved the architecture and the target. *)
Lemma doRun_unknown (t : str) (st : state) :
  truthy t = true -> is_Task t = false -> truthy (arch_name h) = true ->
  exists tr st', doRun h (Some t) st
                 = (tr, Throw (lit "No task matching " ++ quoted t) st')
    /\ pipelines tr = []
    /\ children tr = match _target st with
                     | Some _ => []
                     | None => if host_is_darwin h then []
                               else [Exec (lit "ldd --version")]
                     end.
Proof.
  intros Ht Hk Ha. unfold doRun. cbv [truthy_opt or_else]. rewrite Ht.
  cbn [negb]. rewrite (bind_Ret _ (ensureArgument_eq (lit "arch") _ st Ha)).
  destruct (target_returns st) as (t1 & tg & st1 & E1 & _ & Hp & Hc).
  rewrite (bind_Ret _ E1).
  rewrite (bind_Ret _ (ensureArgument_eq (lit "target") _ st1
                         (truthy_Target_str tg))).
  unfold is_Task in Hk. cbn [existsb] in Hk.
  apply orb_false_iff in Hk. destruct Hk as [Hb Hk].
  apply orb_false_iff in Hk. destruct Hk as [Hp' Hk].
  apply orb_false_iff in Hk. destruct Hk as [Hbu Hk].
  apply orb_false_iff in Hk. destruct Hk as [Hw _].
  rewrite Hb, Hp', Hbu, Hw. cbn [fst snd throw].
  eexists _, _. split; [reflexivity|].
  rewrite !app_nil_r, pipelines_app, pipelines_app, children_app, children_app.
  rewrite Hp, Hc, !children_log_trace, !pipelines_log_trace, !app_nil_r.
  split; reflexivity.
Qed.

End BadTask.

Arguments bind_Throw {A B m} f {st st' t e} _.

(** C9, the claim as the specification states it, fails: on a Linux host
    an unknown task is reported only after the probe of [target] has been
    started as a child process. *)
Lemma bad_task_starts_nothing_fails : ~ bad_task_starts_nothing.
Proof.
  intros H. specialize (H linux_host (Some (lit "foo")) eq_refl).
  cbn zeta in H. destruct H as (_ & H & _). vm_compute in H. discriminate H.
Qed.

(** C9, amended. Without a task [run] reports "No task provided" and exits
    with code 1 before anything else. With a task that is none of the four,
    [run] enters no flow, reports that no task matches and exits with code
    1, but only after it has resolved the architecture and the target, and
    resolving the target for the first time on a host that is not Darwin
    starts the probe as a child process. *)
Theorem bad_task_fails (h : host) (st : state) :
  (forall task : option str,
     truthy_opt task = false ->
     run h task st
     = ([ConsoleError [lit "No task provided"]; ProcessExit 1],
        Exit 1%Z (set_currentTask task st)))
  /\ (forall t : str,
        truthy t = true -> is_Task t = false -> truthy (arch_name h) = true ->
        let r := run h (Some t) st in
        exit_code r = Some 1%Z
        /\ pipelines (trace r) = []
        /\ children (trace r)
           = match _target st with
             | Some _ => []
             | None => if host_is_darwin h then []
                       else [Exec (lit "ldd --version")]
             end
        /\ exists before,
             trace r = before
                       ++ [ConsoleError [lit "No task matching " ++ quoted t];
                           ProcessExit 1]).
Proof.
  split.
  - intros task E. cbv [run doRun bind catch modify throw emit process_exit].
    rewrite E. reflexivity.
  - intros t Ht Hk Ha. cbn zeta.
    destruct (doRun_unknown h t (set_currentTask (Some t) st) Ht Hk Ha)
      as (tr & st' & E & Hp & Hc).
    assert (Er : run h (Some t) st
                 = (tr ++ [ConsoleError [lit "No task matching " ++ quoted t];
                           ProcessExit 1],
                    Exit 1%Z st')).
    { cbv [run bind catch modify emit process_exit]. rewrite E. reflexivity. }
    rewrite Er. unfold exit_code, trace. cbn [fst snd].
    rewrite pipelines_app, children_app, Hp, Hc.
    split; [reflexivity|]. split; [reflexivity|].
    split; [apply app_nil_r|]. exists tr. reflexivity.
Qed.

Lemma bad_task_fails_witness :
  run linux_host None new_Builder
  = ([ConsoleError [lit "No task provided"]; ProcessExit 1],
     Exit 1%Z (set_currentTask None new_Builder))
  /\ exit_code (run linux_host (Some (lit "foo")) new_Builder) = Some 1%Z
  /\ children (trace (run linux_host (Some (lit "foo")) new_Builder))
     = [Exec (lit "ldd --version")].
Proof.
  split; [|split].
  - exact (proj1 (bad_task_fails linux_host new_Builder) None eq_refl).
  - exact (proj1 (proj2 (bad_task_fails linux_host new_Builder) (lit "foo")
                    eq_refl eq_refl eq_refl)).
  - exact (proj1 (proj2 (proj2 (proj2 (bad_task_fails linux_host new_Builder)
                    (lit "foo") eq_refl eq_refl eq_refl)))).
Defined.

(* ================================================================== *)
(** ** Further properties of [target], [doRun] and [run] *)

Section Resolution.

Variable h : host.

Lemma target_eq (st : state) :
  target h st = (probe_trace h st, Ret (resolved_target h st) (target_state h st)).
Proof.
  unfold probe_trace, target_state, resolved_target.
  destruct (_target st) as [tg|] eqn:E.
  - cbv [target bind gets ret]. rewrite E. reflexivity.
  - rewrite (target_first_call h st E).
    destruct (host_is_darwin h); [|destruct (probe_mentions_musl h)];
      reflexivity.
Qed.

Lemma target_state_cached (st : state) :
  _target (target_state h st) = Some (resolved_target h st).
Proof.
  unfold target_state, resolved_target.
  destruct (_target st) eqn:E; [exact E | reflexivity].
Qed.

Lemma target_state_task (st : state) :
  currentTask (target_state h st) = currentTask st.
Proof. unfold target_state. destruct (_target st); reflexivity. Qed.

Lemma flow_eq (call : effect) (st : state) :
  flow h call st
  = ([call],
     match flow_rejects h with
     | Some message => Throw message st
     | None => Ret tt st
     end).
Proof.
  cbv [flow bind emit throw ret]. destruct (flow_rejects h); reflexivity.
Qed.

(** The four branches of the switch of [doRun], after the two arguments. *)
Lemma doRun_known (t : str) (st : state) :
  truthy t = true -> truthy (arch_name h) = true -> is_Task t = true ->
  let st1 := target_state h st in
  let name := binary_name h (resolved_target h st) in
  let before :=
    log_trace st (lit "arch" ++ lit " is " ++ quoted (arch_name h))
    ++ probe_trace h st
    ++ log_trace st1 (lit "target" ++ lit " is "
                      ++ quoted (Target_str (resolved_target h st))) in
  let settled : result unit :=
    match flow_rejects h with
    | Some message => Throw message st1
    | None => Ret tt st1
    end in
  doRun h (Some t) st
  = if str_eqb t (lit "watch") then
      (before ++ [Spawn vscode; Spawn tsc; BundlerBundle],
       Ret tt (set_tsc_buffer [] (set_vscode_buffer []
                 (set_startingVscode false (set_bundle (Pending 0)
                    (set_server None st1))))))
    else if str_eqb t (lit "binary") then
      (before ++ [CallBinary name], settled)
    else if str_eqb t (lit "package") then
      (before ++ [CallPackage name], settled)
    else (before ++ [CallBuild], settled).
Proof.
  intros Ht Ha Hk. cbn zeta. unfold doRun. cbv [truthy_opt or_else].
  rewrite Ht. cbn [negb].
  rewrite (bind_Ret _ (ensureArgument_eq (lit "arch") _ st Ha)).
  rewrite (bind_Ret _ (target_eq st)).
  rewrite (bind_Ret _ (ensureArgument_eq (lit "target") _ (target_state h st)
                         (truthy_Target_str (resolved_target h st)))).
  cbn [fst snd]. unfold binary_name.
  destruct (str_eqb t (lit "watch")) eqn:Ew.
  { cbv [watch bind modify emit ret]. cbn [fst snd app].
    rewrite <- !app_assoc. reflexivity. }
  destruct (str_eqb t (lit "binary")) eqn:Eb.
  { rewrite flow_eq. cbn [fst snd]. rewrite <- !app_assoc. reflexivity. }
  destruct (str_eqb t (lit "package")) eqn:Ep.
  { rewrite flow_eq. cbn [fst snd]. rewrite <- !app_assoc. reflexivity. }
  destruct (str_eqb t (lit "build")) eqn:Eu.
  { rewrite flow_eq. cbn [fst snd]. rewrite <- !app_assoc. reflexivity. }
  unfold is_Task in Hk. cbn [existsb] in Hk.
  rewrite Eb, Ep, Eu, Ew in Hk. discriminate Hk.
Qed.

Lemma run_of_doRun (task : option str) (st st' : state) (t : list effect) :
  doRun h task (set_currentTask task st) = (t, Ret tt st') ->
  run h task st = (t, Ret tt st').
Proof.
  intros E. cbv [run bind catch modify]. rewrite E. reflexivity.
Qed.

Lemma run_of_throw (task : option str) (st st' : state) (t : list effect)
    (message : str) :
  doRun h task (set_currentTask task st) = (t, Throw message st') ->
  run h task st = (t ++ [ConsoleError [message]; ProcessExit 1], Exit 1%Z st').
Proof.
  intros E. cbv [run bind catch modify emit process_exit]. rewrite E.
  reflexivity.
Qed.

Lemma doRun_no_arch (t : str) (st : state) :
  truthy t = true -> truthy (arch_name h) = false ->
  doRun h (Some t) st = ([], Throw (lit "arch" ++ lit " is missing") st).
Proof.
  intros Ht Ha. unfold doRun. cbv [truthy_opt or_else]. rewrite Ht.
  cbn [negb]. cbv [ensureArgument truthy_opt bind throw]. rewrite Ha.
  reflexivity.
Qed.

Lemma doRun_no_task (task : option str) (st : state) :
  truthy_opt task = false ->
  doRun h task st = ([], Throw (lit "No task provided") st).
Proof. intros E. unfold doRun. rewrite E. reflexivity. Qed.

End Resolution.

(** X1. [target] resolves once: whatever the state, a call returns a value
    and leaves it cached, and every later call, on any host, returns that
    value and starts no probe. *)
Theorem target_memoized (h : host) (st : state) :
  exists (t : list effect) (tg : Target) (st' : state),
    target h st = (t, Ret tg st')
    /\ _target st' = Some tg
    /\ forall h' : host, target h' st' = ([], Ret tg st').
Proof.
  exists (probe_trace h st), (resolved_target h st), (target_state h st).
  split; [apply target_eq|]. split; [apply target_state_cached|].
  intros h'. pose proof (target_state_cached h st) as E.
  cbv [target bind gets ret]. rewrite E. reflexivity.
Qed.

(** [run] with one of the four tasks. *)
Lemma run_known (h : host) (st : state) (t : str) :
  truthy (arch_name h) = true ->
  is_Task t = true ->
  let r := run h (Some t) st in
  let name := binary_name h (resolved_target h st) in
  currentTask (final r) = Some t
  /\ _target (final r) = Some (resolved_target h st)
  /\ pipelines (trace r)
     = (if str_eqb t (lit "watch") then [Spawn vscode; Spawn tsc; BundlerBundle]
        else if str_eqb t (lit "binary") then [CallBinary name]
        else if str_eqb t (lit "package") then [CallPackage name]
        else [CallBuild])
  /\ match flow_outcome h t with
     | None => exit_code r = None
     | Some message =>
         exit_code r = Some 1%Z
         /\ exists before,
              trace r = before ++ [ConsoleError [message]; ProcessExit 1]
     end.
Proof.
  intros Ha Hk. cbn zeta.
  assert (Ht : truthy t = true).
  { destruct t; [|reflexivity]. vm_compute in Hk. discriminate Hk. }
  pose proof (doRun_known h t (set_currentTask (Some t) st) Ht Ha Hk) as E.
  cbn zeta in E.
  change (resolved_target h (set_currentTask (Some t) st))
    with (resolved_target h st) in E.
  change (probe_trace h (set_currentTask (Some t) st))
    with (probe_trace h st) in E.
  assert (Hp : forall tail,
    pipelines ((log_trace (set_currentTask (Some t) st)
                  (lit "arch" ++ lit " is " ++ quoted (arch_name h))
                ++ probe_trace h st
                ++ log_trace (target_state h (set_currentTask (Some t) st))
                     (lit "target" ++ lit " is "
                      ++ quoted (Target_str (resolved_target h st))))
               ++ tail) = pipelines tail).
  { intros tail. rewrite !pipelines_app, !pipelines_log_trace.
    unfold probe_trace.
    destruct (_target st); [|destruct (host_is_darwin h)]; reflexivity. }
  assert (Hc : _target (target_state h (set_currentTask (Some t) st))
               = Some (resolved_target h st))
    by apply (target_state_cached h (set_currentTask (Some t) st)).
  assert (Hs : currentTask (target_state h (set_currentTask (Some t) st))
               = Some t)
    by apply (target_state_task h (set_currentTask (Some t) st)).
  unfold flow_outcome.
  destruct (str_eqb t (lit "watch")).
  { rewrite (run_of_doRun h _ st E). unfold exit_code, final, trace.
    cbn [fst snd]. rewrite Hp. repeat split; assumption. }
  destruct (flow_rejects h) as [message|].
  - destruct (str_eqb t (lit "binary"));
      [|destruct (str_eqb t (lit "package"))];
      rewrite (run_of_throw h _ st E); unfold exit_code, final, trace;
      cbn [fst snd]; rewrite pipelines_app, Hp;
      (split; [exact Hs|]); (split; [exact Hc|]);
      (split; [reflexivity|]); (split; [reflexivity|]);
      eexists; reflexivity.
  - destruct (str_eqb t (lit "binary"));
      [|destruct (str_eqb t (lit "package"))];
      rewrite (run_of_doRun h _ st E); unfold exit_code, final, trace;
      cbn [fst snd]; rewrite Hp; repeat split; assumption.
Qed.

(** X2. With a task that is one of the four and an architecture that is not
    empty, [run] enters the flow of that task and no other: [watch] starts
    the two watchers and the bundler, the other three call their method,
    [binary] and [package] with the name code-server-VERSION-TARGET-ARCH.
    The task stays recorded and the target cached. [run] does not exit when
    the flow resolves, which [watch] always does; when the flow rejects,
    [run] reports the message of its error and exits with code 1. *)
Theorem run_enters_one_flow (h : host) (st : state) (t : str) :
  truthy (arch_name h) = true ->
  is_Task t = true ->
  let r := run h (Some t) st in
  let name := binary_name h (resolved_target h st) in
  currentTask (final r) = Some t
  /\ _target (final r) = Some (resolved_target h st)
  /\ pipelines (trace r)
     = (if str_eqb t (lit "watch") then [Spawn vscode; Spawn tsc; BundlerBundle]
        else if str_eqb t (lit "binary") then [CallBinary name]
        else if str_eqb t (lit "package") then [CallPackage name]
        else [CallBuild])
  /\ match flow_outcome h t with
     | None => exit_code r = None
     | Some message =>
         exit_code r = Some 1%Z
         /\ exists before,
              trace r = before ++ [ConsoleError [message]; ProcessExit 1]
     end.
Proof. exact (run_known h st t). Qed.

Lemma run_enters_one_flow_witness :
  pipelines (trace (run linux_host (Some (lit "package")) new_Builder))
  = [CallPackage (lit "code-server-2.1.0-linux-x86_64")]
  /\ exit_code (run linux_host (Some (lit "package")) new_Builder) = None
  /\ exit_code (run no_binary_host (Some (lit "package")) new_Builder)
     = Some 1%Z.
Proof.
  split; [|split].
  - exact (proj1 (proj2 (proj2 (run_enters_one_flow linux_host new_Builder
                                  (lit "package") eq_refl eq_refl)))).
  - exact (proj2 (proj2 (proj2 (run_enters_one_flow linux_host new_Builder
                                  (lit "package") eq_refl eq_refl)))).
  - exact (proj1 (proj2 (proj2 (proj2 (run_enters_one_flow no_binary_host
                                  new_Builder (lit "package")
                                  eq_refl eq_refl))))).
Defined.

(** X3. [run] exits exactly when the task is missing or empty, when the
    architecture is empty, when the task is none of the four, or when the
    flow it entered rejects, and then with code 1 after one call of
    console.error; in every other case it returns. *)
Theorem run_exit_code (h : host) (st : state) (task : option str) :
  let r := run h task st in
  let accepted :=
    truthy_opt task && truthy (arch_name h) && is_Task (or_else task [])
    && negb (is_some (flow_outcome h (or_else task []))) in
  exit_code r = (if accepted then None else Some 1%Z)
  /\ (if accepted then True
      else exists before message,
             trace r = before ++ [ConsoleError [message]; ProcessExit 1]).
Proof.
  cbn zeta. destruct (truthy_opt task) eqn:Et.
  - destruct task as [t|]; [|discriminate Et]. cbn [truthy_opt] in Et.
    cbv [or_else]. rewrite Et. cbn [andb].
    destruct (truthy (arch_name h)) eqn:Ha; cbn [andb].
    + destruct (is_Task t) eqn:Hk; cbn [andb].
      * pose proof (proj2 (proj2 (proj2 (run_known h st t Ha Hk)))) as H.
        cbn zeta in H. destruct (flow_outcome h t) as [message|];
          cbn [is_some negb].
        -- destruct H as (H & before & E). split; [exact H|].
           exists before, message. exact E.
        -- split; [exact H | exact I].
      * destruct (doRun_unknown h t (set_currentTask (Some t) st) Et Hk Ha)
          as (tr & st' & E & _).
        rewrite (run_of_throw h _ st E). split; [reflexivity|].
        eexists _, _. reflexivity.
    + rewrite (run_of_throw h _ st
                 (doRun_no_arch h t (set_currentTask (Some t) st) Et Ha)).
      split; [reflexivity|]. eexists _, _. reflexivity.
  - cbn [andb].
    rewrite (run_of_throw h _ st
               (doRun_no_task h task (set_currentTask task st) Et)).
    split; [reflexivity|]. eexists _, _. reflexivity.
Qed.

(* ================================================================== *)
(** ** Further properties of the pattern and of the line reader *)

Section Deletion.

Lemma subsequence_refl (s : str) : subsequence s s.
Proof. induction s; constructor; assumption. Qed.

Lemma subsequence_length (a b : str) :
  subsequence a b -> List.length a <= List.length b.
Proof. induction 1; cbn [List.length]; lia. Qed.

Lemma subsequence_In (a b : str) (c : char) :
  subsequence a b -> In c a -> In c b.
Proof.
  induction 1 as [|c' a b H IH|c' a b H IH]; intros Hin.
  - exact Hin.
  - destruct Hin as [->|Hin]; [left; reflexivity | right; apply IH, Hin].
  - right. apply IH, Hin.
Qed.

(** Deleting the matches of any pattern only leaves code units out. *)
Lemma delete_from_subsequence (r : regex) : forall (s : str) (skip : nat),
  subsequence (delete_from r skip s) s.
Proof.
  induction s as [|c s IH]; intros skip; [constructor|].
  cbn [delete_from]. destruct skip as [|k]; [|constructor; apply IH].
  destruct (match_at r (c :: s)) as [rest|].
  - destruct (List.length (c :: s) - List.length rest);
      constructor; apply IH.
  - constructor. apply IH.
Qed.

Lemma strip_subsequence (line : str) : subsequence (strip line) line.
Proof. apply delete_from_subsequence. Qed.

Lemma match_at_pattern_head (c : char) (s : str) :
  introducer c = false -> match_at pattern (c :: s) = None.
Proof.
  intros Hc. destruct (match_at pattern (c :: s)) as [rest|] eqn:E;
    [|reflexivity].
  apply match_at_pattern in E. destruct E as (c' & pre & E & Hi).
  injection E as <- _. congruence.
Qed.

End Deletion.

(** X4. Stripping only deletes: the stripped line is the original with some
    code units left out, in the same order, so it is never longer and holds
    nothing the original does not hold. *)
Theorem strip_only_deletes (line : str) :
  subsequence (strip line) line
  /\ List.length (strip line) <= List.length line
  /\ forall c : char, In c (strip line) -> In c line.
Proof.
  pose proof (strip_subsequence line) as H. split; [exact H|]. split.
  - apply subsequence_length, H.
  - intros c. apply subsequence_In, H.
Qed.

Lemma strip_only_deletes_witness :
  In (ch "r") (strip sample_line) /\ In (ch "r") sample_line.
Proof.
  assert (H : In (ch "r") (strip sample_line))
    by (vm_compute; right; right; left; reflexivity).
  split; [exact H|].
  exact (proj2 (proj2 (strip_only_deletes sample_line)) (ch "r") H).
Defined.

(** X5. What stands before the first introducer of a line is kept as it
    is: stripping goes on behind it. A line without introducer is left
    whole. *)
Theorem strip_keeps_plain_prefix (plain rest : str) :
  Forall (fun c => introducer c = false) plain ->
  strip (plain ++ rest) = plain ++ strip rest
  /\ strip plain = plain.
Proof.
  intros H. assert (E : forall tail, strip (plain ++ tail) = plain ++ strip tail).
  { intros tail. unfold strip, delete_all.
    induction H as [|c s Hc Hs IH]; [reflexivity|].
    cbn [app delete_from]. rewrite match_at_pattern_head by exact Hc.
    f_equal. exact IH. }
  split; [apply E|].
  pose proof (E []) as E0. rewrite app_nil_r in E0.
  change (strip []) with (@nil char) in E0. rewrite app_nil_r in E0. exact E0.
Qed.

Lemma strip_keeps_plain_prefix_witness :
  strip (lit "error TS2304: " ++ esc :: lit "[31mname")
  = lit "error TS2304: " ++ strip (esc :: lit "[31mname").
Proof.
  refine (proj1 (@strip_keeps_plain_prefix (lit "error TS2304: ")
                   (esc :: lit "[31mname") _)).
  repeat constructor.
Defined.

Section Reader.

Lemma split_no_newline (s : str) :
  Forall (fun l => ~ In newline l) (JS.split s).
Proof.
  induction s as [|c s IH]; [repeat constructor; intros []|].
  cbn [JS.split]. destruct (N.eqb c newline) eqn:E.
  - constructor; [intros []|exact IH].
  - pose proof (split_not_nil s) as Hn.
    destruct (JS.split s) as [|l ls]; [contradiction|].
    inversion IH as [|? ? Hl Hls]; subst. constructor; [|exact Hls].
    intros [->|Hin]; [|exact (Hl Hin)].
    rewrite N.eqb_refl in E. discriminate E.
Qed.

Lemma length_split (s : str) :
  List.length (JS.split s) = S (count_occ N.eq_dec s newline).
Proof.
  induction s as [|c s IH]; [reflexivity|].
  cbn [JS.split count_occ]. destruct (N.eqb_spec c newline) as [->|Hc].
  - destruct (N.eq_dec newline newline); [|contradiction].
    cbn [List.length]. rewrite IH. reflexivity.
  - destruct (N.eq_dec c newline); [contradiction|].
    pose proof (split_not_nil s) as Hn.
    destruct (JS.split s) as [|l ls]; [contradiction|]. exact IH.
Qed.

(** A string without newline is its own only segment. *)
Lemma split_clean (b : str) : ~ In newline b -> JS.split b = [b].
Proof.
  induction b as [|c b IH]; intros H; [reflexivity|].
  cbn [JS.split]. destruct (N.eqb_spec c newline) as [->|Hc].
  - exfalso. apply H. left. reflexivity.
  - rewrite IH; [reflexivity|]. intros Hin. apply H. right. exact Hin.
Qed.

Lemma Forall_removelast {A} (P : A -> Prop) (l : list A) :
  Forall P l -> Forall P (removelast l).
Proof.
  induction 1 as [|a l Ha Hl IH]; [constructor|].
  destruct l as [|b l]; [constructor|].
  change (removelast (a :: b :: l)) with (a :: removelast (b :: l)).
  constructor; assumption.
Qed.

Lemma Forall_last {A} (P : A -> Prop) (l : list A) (d : A) :
  l <> [] -> Forall P l -> P (last l d).
Proof.
  intros Hn H. rewrite (app_removelast_last d Hn) in H.
  apply Forall_app in H. destruct H as [_ H]. inversion H; assumption.
Qed.

End Reader.

(** X6. No line handed to a callback holds a newline, in its original or in
    its stripped form, and neither does the buffer the reader keeps. *)
Theorem onLine_lines_hold_no_newline (chunks : list str) :
  Forall (fun c => ~ In newline (fst c) /\ ~ In newline (snd c))
         (fst (onLine chunks))
  /\ ~ In newline (snd (onLine chunks)).
Proof.
  rewrite onLine_split. cbn [fst snd].
  pose proof (split_no_newline (List.concat chunks)) as H. split.
  - apply Forall_map. apply Forall_removelast in H.
    apply (Forall_impl _ (P := fun l => ~ In newline l)); [|exact H].
    intros l Hl. cbn [call_of fst snd]. split; [|exact Hl].
    intros Hin. apply Hl. exact (@subsequence_In _ _ _ (strip_subsequence l) Hin).
  - apply Forall_last; [apply split_not_nil | exact H].
Qed.

(** X7. The callback is called once for each newline of the stream, however
    the stream is cut. *)
Theorem onLine_calls_count_newlines (chunks : list str) :
  List.length (fst (onLine chunks))
  = count_occ N.eq_dec (List.concat chunks) newline.
Proof.
  rewrite onLine_split. cbn [fst]. rewrite length_map, removelast_firstn_len.
  rewrite length_firstn, length_split. cbn [Nat.pred]. lia.
Qed.

(** X8. A reader in the middle of a stream: from a buffer without newline,
    the calls for the chunks still to come are those for the segments of
    the buffer followed by these chunks, and the new buffer is the last
    segment. *)
Theorem onLine_feed_resumes (buffer : str) (chunks : list str) :
  ~ In newline buffer ->
  let rest := buffer ++ List.concat chunks in
  onLine_feed buffer chunks
  = (map call_of (removelast (JS.split rest)), last (JS.split rest) []).
Proof.
  intros H. cbn zeta.
  pose proof (onLine_feed_split chunks buffer) as E. cbn zeta in E.
  rewrite (@split_clean buffer H) in E. cbn [last] in E. exact E.
Qed.

Lemma onLine_feed_resumes_witness :
  onLine_feed (lit "Finished comp") [lit "ilation"; newline :: lit "x"]
  = ([call_of (lit "Finished compilation")], lit "x").
Proof.
  refine (@onLine_feed_resumes (lit "Finished comp")
            [lit "ilation"; newline :: lit "x"] _).
  vm_compute. intuition discriminate.
Defined.

(* ================================================================== *)
(** ** Further properties of the callbacks of [watch] *)

Section Callbacks.

Variable h : host.

Lemma console_logs_app (t1 t2 : list effect) :
  console_logs (t1 ++ t2) = console_logs t1 ++ console_logs t2.
Proof.
  induction t1 as [|e t1 IH]; [reflexivity|].
  destruct e; cbn [app console_logs]; rewrite IH; reflexivity.
Qed.

Lemma keeps_refl (st : state) : keeps st st.
Proof.
  repeat split. destruct (startingVscode st); reflexivity.
Qed.

Lemma keeps_trans (a b c : state) : keeps a b -> keeps b c -> keeps a c.
Proof.
  intros (H1 & H2 & H3) (H4 & H5 & H6). repeat split; try congruence.
  destruct (startingVscode a), (startingVscode b), (startingVscode c);
    try reflexivity; discriminate.
Qed.

Lemma tsc_lines_cons (c : str * str) (calls : list (str * str)) (st : state) :
  tsc_lines (c :: calls) st
  = let r := tsc_lines calls (final (tsc_line (fst c) (snd c) st)) in
    ((if negb (str_eqb (fst c) []) then [ConsoleLog [lit "[tsc]"; snd c]]
      else []) ++ fst r,
     snd r).
Proof.
  unfold tsc_lines. cbn [for_each].
  rewrite (bind_Ret _ (tsc_line_eq (fst c) (snd c) st)).
  unfold final. rewrite tsc_line_eq. reflexivity.
Qed.

(** The lines of the VS Code watcher: what they write and start, and what
    they leave of the state. *)
Lemma vscode_lines_census (calls : list (str * str)) : forall st : state,
  exists t st', vscode_lines h calls st = (t, Ret tt st')
    /\ forallb (watch_effect h) t = true
    /\ keeps st st'
    /\ console_logs t = map (fun c => [lit "[vscode]"; snd c]) calls.
Proof.
  induction calls as [|c calls IH]; intros st.
  - exists [], st. repeat split. apply keeps_refl.
  - rewrite vscode_lines_cons. cbn zeta.
    destruct (IH (if arming st (fst c) then set_startingVscode true st else st))
      as (t & st' & -> & Hc & Hk & Hl).
    cbn [fst snd]. eexists _, st'. split; [reflexivity|].
    split; [|split].
    + cbn [app forallb watch_effect]. rewrite forallb_app, Hc, andb_true_r.
      destruct (arming st (fst c)); [reflexivity|].
      unfold firing. destruct (startingVscode st); [|reflexivity].
      destruct (includes (fst c) _); [|reflexivity].
      destruct (truthy_opt (env_AUTO_PATCH h)) eqn:E; [|reflexivity].
      cbn [andb forallb watch_effect]. rewrite E. reflexivity.
    + apply (keeps_trans (b := if arming st (fst c)
                               then set_startingVscode true st else st));
        [|exact Hk].
      destruct (arming st (fst c)); [|apply keeps_refl].
      repeat split. simpl. destruct (startingVscode st); reflexivity.
    + cbn [app console_logs map]. rewrite console_logs_app, Hl.
      destruct (arming st (fst c)); [reflexivity|].
      destruct (firing h st (fst c)); reflexivity.
Qed.

(** The lines of tsc: what they write, and what they leave of the state. *)
Lemma tsc_lines_census (calls : list (str * str)) : forall st : state,
  exists t st', tsc_lines calls st = (t, Ret tt st')
    /\ forallb (watch_effect h) t = true
    /\ keeps st st'
    /\ console_logs t
       = map (fun c => [lit "[tsc]"; snd c])
             (filter (fun c => negb (str_eqb (fst c) [])) calls).
Proof.
  induction calls as [|c calls IH]; intros st.
  - exists [], st. repeat split. apply keeps_refl.
  - rewrite tsc_lines_cons. cbn zeta.
    destruct (IH (final (tsc_line (fst c) (snd c) st)))
      as (t & st' & -> & Hc & Hk & Hl).
    cbn [fst snd]. eexists _, st'. split; [reflexivity|].
    split; [|split].
    + rewrite forallb_app, Hc, andb_true_r.
      destruct (negb (str_eqb (fst c) [])); reflexivity.
    + apply (keeps_trans (b := final (tsc_line (fst c) (snd c) st)));
        [|exact Hk].
      unfold final. rewrite tsc_line_eq. cbn [snd].
      destruct (includes (fst c) _); [|apply keeps_refl].
      destruct (bundle st); repeat split; simpl;
        destruct (startingVscode st); reflexivity.
    + rewrite console_logs_app, Hl. cbn [filter].
      destruct (negb (str_eqb (fst c) [])); reflexivity.
Qed.

End Callbacks.

(** X9. The VS Code watcher is echoed whole: console.log is called once for
    every line, in order, with the tag and the original text of the line,
    whatever the line holds and whatever the flag is. *)
Theorem vscode_lines_echo (h : host) (calls : list (str * str)) (st : state) :
  console_logs (trace (vscode_lines h calls st))
  = map (fun c => [lit "[vscode]"; snd c]) calls
  /\ exit_code (vscode_lines h calls st) = None.
Proof.
  destruct (vscode_lines_census h calls st) as (t & st' & E & _ & _ & Hl).
  rewrite E. split; [exact Hl | reflexivity].
Qed.

(** X10. tsc is echoed without its blank lines: console.log is called, in
    order, for the lines whose stripped text is not empty, each with its
    original text; a line that is empty once stripped is not echoed. *)
Theorem tsc_lines_echo (calls : list (str * str)) (st : state) :
  console_logs (trace (tsc_lines calls st))
  = map (fun c => [lit "[tsc]"; snd c])
        (filter (fun c => negb (str_eqb (fst c) [])) calls)
  /\ exit_code (tsc_lines calls st) = None.
Proof.
  destruct (tsc_lines_census linux_host calls st) as (t & st' & E & _ & _ & Hl).
  rewrite E. split; [exact Hl | reflexivity].
Qed.

Section Turns.

Variable h : host.

(** With the promise fulfilled the lines of tsc queue one job for each line
    with the marker, and fork nothing themselves. *)
Lemma tsc_lines_fulfilled (calls : list (str * str)) : forall st : state,
  bundle st = Fulfilled ->
  exists t st', tsc_lines calls st = (t, Ret tt st')
    /\ forks t = 0
    /\ bundle st' = Fulfilled
    /\ jobs st' = jobs st + List.length (filter watching_marker calls)
    /\ server st' = server st /\ next_pid st' = next_pid st.
Proof.
  induction calls as [|c calls IH]; intros st Hb.
  - exists [], st. rewrite Nat.add_0_r. repeat split. exact Hb.
  - rewrite tsc_lines_cons. cbn zeta. unfold final. rewrite tsc_line_eq.
    cbn [snd filter]. unfold watching_marker at 1.
    destruct (includes (fst c) (lit "Watching for file changes")).
    + rewrite Hb.
      destruct (IH (set_jobs (S (jobs st)) st) Hb)
        as (t & st' & -> & Ht & Hb' & Hj & Hs & Hn).
      cbn [fst snd]. eexists _, st'. split; [reflexivity|].
      rewrite forks_app, Ht, Hb', Hj, Hs, Hn. cbn [List.length].
      repeat split; [|simpl; lia].
      destruct (negb (str_eqb (fst c) [])); reflexivity.
    + destruct (IH st Hb) as (t & st' & -> & Ht & Hb' & Hj & Hs & Hn).
      cbn [fst snd]. eexists _, st'. split; [reflexivity|].
      rewrite forks_app, Ht. repeat split; try assumption.
      destruct (negb (str_eqb (fst c) [])); reflexivity.
Qed.

(** [n] restarts in a row: [n] forks, with the process ids that follow one
    another, and the last forked server is the one held. *)
Lemma times_restartServer_pids (n : nat) : forall st : state,
  exists t st', times n restartServer st = (t, Ret tt st')
    /\ forks t = n
    /\ forallb (watch_effect h) t = true
    /\ keeps st st'
    /\ jobs st' = jobs st /\ bundle st' = bundle st
    /\ next_pid st' = next_pid st + n
    /\ server st' = match n with
                    | O => server st
                    | S k => Some (next_pid st + k)
                    end.
Proof.
  induction n as [|n IH]; intros st.
  - exists [], st. rewrite Nat.add_0_r. repeat split. apply keeps_refl.
  - cbn [times]. rewrite (bind_Ret _ (restartServer_eq st)).
    destruct (IH (set_server (Some (next_pid st))
                    (set_live (next_pid st :: live st)
                       (set_next_pid (S (next_pid st)) st))))
      as (t & st' & -> & Ht & Hc & Hk & Hj & Hb & Hn & Hs).
    cbn [fst snd]. eexists _, st'. split; [reflexivity|].
    rewrite forks_app, Ht, forallb_app, Hc, Hj, Hb, Hn, Hs, andb_true_r.
    split; [destruct (server st); reflexivity|].
    split; [destruct (server st); reflexivity|].
    split.
    { apply (keeps_trans (b := set_server (Some (next_pid st))
                    (set_live (next_pid st :: live st)
                       (set_next_pid (S (next_pid st)) st)))); [|exact Hk].
      repeat split. simpl. destruct (startingVscode st); reflexivity. }
    repeat split; simpl; [lia|].
    destruct n; simpl; f_equal; lia.
Qed.

Lemma run_jobs_spec (st : state) :
  exists t st', run_jobs st = (t, Ret tt st')
    /\ forks t = jobs st
    /\ forallb (watch_effect h) t = true
    /\ keeps st st'
    /\ jobs st' = 0 /\ bundle st' = bundle st
    /\ next_pid st' = next_pid st + jobs st.
Proof.
  destruct (times_restartServer_pids (jobs st) (set_jobs 0 st))
    as (t & st' & E & Ht & Hc & Hk & Hj & Hb & Hn & _).
  exists t, st'. split.
  { unfold run_jobs.
    rewrite (bind_Ret _ (eq_refl : gets jobs st = ([], Ret (jobs st) st))).
    rewrite (bind_Ret _ (eq_refl : modify (set_jobs 0) st
                                   = ([], Ret tt (set_jobs 0 st)))).
    rewrite E. reflexivity. }
  repeat split; try assumption.
  - destruct Hk as (H1 & _). exact H1.
  - destruct Hk as (_ & H2 & _). exact H2.
  - destruct Hk as (_ & _ & H3). exact H3.
Qed.

(** The callbacks that leave the process: they all go through [cleanup],
    which leaves the state as it is. *)
Lemma callback_exits (e : event) (st : state) (c : Z) :
  exit_of e = Some c ->
  exists t, callback h e st = (t, Exit c st)
    /\ lifecycle t = teardown (server st) ++ [ProcessExit c].
Proof.
  intros E.
  assert (Hl : forall message code,
    lifecycle (log_trace st message ++ trace (cleanup code st))
    = teardown (server st) ++ [ProcessExit (or_zero code)]).
  { intros message code. unfold lifecycle. rewrite filter_app.
    apply (lifecycle_cleanup code st). }
  destruct e; try discriminate E; cbn [exit_of] in E; injection E as <-;
    cbn [callback].
  - exists (trace (cleanup None st)). unfold trace. rewrite cleanup_eq.
    split; [reflexivity|]. rewrite <- cleanup_eq.
    apply (lifecycle_cleanup None st).
  - exists (trace (cleanup None st)). unfold trace. rewrite cleanup_eq.
    split; [reflexivity|]. rewrite <- cleanup_eq.
    apply (lifecycle_cleanup None st).
  - eexists (log_trace st _ ++ trace (cleanup code st)).
    split; [|apply Hl].
    rewrite (bind_Ret _ (log_eq _ st)). unfold trace. rewrite cleanup_eq.
    reflexivity.
  - eexists (log_trace st _ ++ trace (cleanup code st)).
    split; [|apply Hl].
    rewrite (bind_Ret _ (log_eq _ st)). unfold trace. rewrite cleanup_eq.
    reflexivity.
  - eexists (log_trace st _ ++ trace (cleanup (Some 1%Z) st)).
    split; [|apply (Hl _ (Some 1%Z))].
    rewrite (bind_Ret _ (log_eq _ st)). unfold trace. rewrite cleanup_eq.
    reflexivity.
Qed.

(** The callbacks that return. *)
Lemma callback_stays (e : event) (st : state) :
  exit_of e = None ->
  exists t st', callback h e st = (t, Ret tt st')
    /\ forallb (watch_effect h) t = true
    /\ keeps st st'.
Proof.
  intros E.
  destruct e as [ | |code|code| | | |error|d|d|d|d|p|error stderr];
    try discriminate E; cbn [callback].
  - cbv [bind gets modify ret]. destruct (bundle st);
      eexists _, _; (split; [reflexivity|]); (split; [reflexivity|]);
      repeat split; simpl; destruct (startingVscode st); reflexivity.
  - eexists _, _. split; [reflexivity|]. split; [reflexivity|].
    apply keeps_refl.
  - eexists _, _. split; [reflexivity|]. split; [reflexivity|].
    apply keeps_refl.
  - eexists _, _. split; [reflexivity|]. split; [reflexivity|].
    apply keeps_refl.
  - eexists _, _. split; [reflexivity|]. split; [reflexivity|].
    apply keeps_refl.
  - unfold on_data.
    rewrite (bind_Ret _ (eq_refl : gets vscode_buffer st
                                   = ([], Ret (vscode_buffer st) st))).
    destruct (onLine_data (vscode_buffer st) d) as [calls b'].
    fold (vscode_lines h calls).
    destruct (vscode_lines_census h calls st) as (t & st' & E' & Hc & Hk & _).
    rewrite (bind_Ret _ E'). cbv [modify]. cbn [fst snd app].
    rewrite app_nil_r.
    eexists _, _. split; [reflexivity|]. split; [exact Hc|].
    apply (keeps_trans Hk). repeat split. simpl.
    destruct (startingVscode st'); reflexivity.
  - unfold on_data.
    rewrite (bind_Ret _ (eq_refl : gets tsc_buffer st
                                   = ([], Ret (tsc_buffer st) st))).
    destruct (onLine_data (tsc_buffer st) d) as [calls b'].
    fold (tsc_lines calls).
    destruct (tsc_lines_census h calls st) as (t & st' & E' & Hc & Hk & _).
    rewrite (bind_Ret _ E'). cbv [modify]. cbn [fst snd app].
    rewrite app_nil_r.
    eexists _, _. split; [reflexivity|]. split; [exact Hc|].
    apply (keeps_trans Hk). repeat split. simpl.
    destruct (startingVscode st'); reflexivity.
  - eexists _, _. split; [reflexivity|]. split; [reflexivity|].
    repeat split. simpl. destruct (startingVscode st); reflexivity.
  - destruct error as [message|]; [|destruct (truthy stderr) eqn:Es];
      cbv [when]; rewrite ?Es; eexists _, _; (split; [reflexivity|]);
      (split; [reflexivity|]); apply keeps_refl.
Qed.

Lemma turn_exits (e : event) (st : state) (c : Z) :
  exit_of e = Some c ->
  exists t, turn h e st = (t, Exit c st)
    /\ lifecycle t = teardown (server st) ++ [ProcessExit c].
Proof.
  intros E. destruct (callback_exits e st E) as (t & Ec & Hl).
  exists t. split; [|exact Hl]. unfold turn. apply (bind_Exit _ Ec).
Qed.

Lemma turn_stays (e : event) (st : state) :
  exit_of e = None ->
  exists t st', turn h e st = (t, Ret tt st')
    /\ forallb (watch_effect h) t = true
    /\ keeps st st' /\ jobs st' = 0.
Proof.
  intros E. destruct (callback_stays e st E) as (t & st1 & Ec & Hc & Hk).
  destruct (run_jobs_spec st1) as (t' & st2 & Ej & _ & Hc' & Hk' & Hj & _).
  unfold turn. rewrite (bind_Ret _ Ec), Ej. cbn [fst snd].
  eexists _, st2. split; [reflexivity|].
  rewrite forallb_app, Hc, Hc'. repeat split; try assumption.
  - destruct Hk as (H1 & _), Hk' as (H1' & _). congruence.
  - destruct Hk as (_ & H2 & _), Hk' as (_ & H2' & _). congruence.
  - exact (proj2 (proj2 (keeps_trans Hk Hk'))).
Qed.

(** The event loop, whatever the events: the state it leaves keeps the
    target and the task and has [startingVscode] no lower. *)
Lemma event_loop_keeps (events : list event) : forall st : state,
  keeps st (final (event_loop h events st)).
Proof.
  induction events as [|e events IH]; intros st; [apply keeps_refl|].
  unfold event_loop. cbn [for_each]. fold (event_loop h events).
  destruct (exit_of e) as [c|] eqn:E.
  - destruct (turn_exits e st E) as (t & Et & _).
    rewrite (bind_Exit _ Et). apply keeps_refl.
  - destruct (turn_stays e st E) as (t & st1 & Et & _ & Hk & _).
    rewrite (bind_Ret _ Et). unfold final. cbn [snd].
    apply (keeps_trans Hk). apply IH.
Qed.

(** The event loop over events none of which makes the script exit. *)
Lemma event_loop_stays (events : list event) : forall st : state,
  forallb stays events = true ->
  exists t st', event_loop h events st = (t, Ret tt st')
    /\ forallb (watch_effect h) t = true.
Proof.
  induction events as [|e events IH]; intros st H.
  - exists [], st. split; reflexivity.
  - cbn [forallb] in H. apply andb_true_iff in H. destruct H as [He H].
    unfold stays in He. destruct (exit_of e) eqn:E; [discriminate He|].
    unfold event_loop. cbn [for_each]. fold (event_loop h events).
    destruct (turn_stays e st E) as (t & st1 & Et & Hc & _).
    destruct (IH st1 H) as (t' & st2 & E' & Hc').
    rewrite (bind_Ret _ Et), E'. cbn [fst snd].
    eexists _, st2. split; [reflexivity|].
    rewrite forallb_app, Hc, Hc'. reflexivity.
Qed.

End Turns.

(** X11. Once [bundle] is fulfilled, a chunk of tsc with [k] lines that hold
    the marker restarts the server [k] times in the same turn: all the
    lines of the chunk are echoed first and fork nothing, then come the [k]
    forks; the server held at the end is the last one forked and no job is
    left queued. *)
Theorem restart_at_once_when_bundled (h : host) (st : state) (d : str) :
  bundle st = Fulfilled ->
  jobs st = 0 ->
  let calls := fst (onLine_data (tsc_buffer st) d) in
  let k := List.length (filter watching_marker calls) in
  let r := turn h (tsc_stdout d) st in
  exit_code r = None
  /\ (exists echo restarts,
        trace r = echo ++ restarts
        /\ forks echo = 0
        /\ console_logs echo
           = map (fun c => [lit "[tsc]"; snd c])
                 (filter (fun c => negb (str_eqb (fst c) [])) calls)
        /\ forks restarts = k)
  /\ bundle (final r) = Fulfilled
  /\ jobs (final r) = 0
  /\ next_pid (final r) = next_pid st + k
  /\ server (final r) = match k with
                        | O => server st
                        | S j => Some (next_pid st + j)
                        end.
Proof.
  intros Hb Hj. cbn zeta. unfold turn. cbn [callback]. unfold on_data.
  rewrite (bind_assoc _ _ _ st).
  rewrite (bind_Ret _ (eq_refl : gets tsc_buffer st
                                 = ([], Ret (tsc_buffer st) st))).
  destruct (onLine_data (tsc_buffer st) d) as [calls b']. cbn [fst snd app].
  fold (tsc_lines calls).
  destruct (tsc_lines_fulfilled calls st Hb)
    as (t & st1 & E & Ht & Hb1 & Hj1 & Hs1 & Hn1).
  destruct (tsc_lines_census h calls st) as (t0 & st0 & E0 & _ & _ & Hl).
  rewrite E in E0. injection E0 as <- <-.
  rewrite (bind_assoc _ _ _ st), (bind_Ret _ E).
  rewrite (bind_Ret _ (eq_refl : modify (set_tsc_buffer b') st1
                                 = ([], Ret tt (set_tsc_buffer b' st1)))).
  cbn [fst snd app].
  destruct (times_restartServer_pids h (jobs st1)
              (set_jobs 0 (set_tsc_buffer b' st1)))
    as (t' & st2 & E' & Ht' & _ & _ & Hj2 & Hb2 & Hn2 & Hs2).
  assert (Er : run_jobs (set_tsc_buffer b' st1) = (t', Ret tt st2)).
  { unfold run_jobs.
    rewrite (bind_Ret _ (eq_refl : gets jobs (set_tsc_buffer b' st1)
               = ([], Ret (jobs st1) (set_tsc_buffer b' st1)))).
    rewrite (bind_Ret _ (eq_refl : modify (set_jobs 0) (set_tsc_buffer b' st1)
               = ([], Ret tt (set_jobs 0 (set_tsc_buffer b' st1))))).
    rewrite E'. reflexivity. }
  rewrite Er. unfold exit_code, trace, final. cbn [fst snd].
  rewrite Hj1, Hj in Ht', Hn2, Hs2. cbn [Nat.add] in Ht', Hn2, Hs2.
  simpl in Hj2, Hb2, Hn2, Hs2.
  split; [reflexivity|]. split.
  { exists t, t'. repeat split; assumption. }
  rewrite Hb2, Hj2, Hn2, Hs2, Hb1, Hn1, Hs1. repeat split.
Qed.

Lemma restart_at_once_when_bundled_witness :
  let st := final (turn linux_host bundle_fulfilled (watching linux_host)) in
  let d := lit "Watching for file changes." ++ [newline] in
  forks (trace (turn linux_host (tsc_stdout d) st)) = 1
  /\ server (final (turn linux_host (tsc_stdout d) st)) = Some 0.
Proof.
  pose proof (@restart_at_once_when_bundled linux_host
                (final (turn linux_host bundle_fulfilled (watching linux_host)))
                (lit "Watching for file changes." ++ [newline])
                eq_refl eq_refl) as H.
  cbn zeta in H. destruct H as (_ & (echo & restarts & E & H0 & _ & H1) & _ & _ & _ & Hs).
  split; [|exact Hs]. rewrite E, forks_app, H0. exact H1.
Defined.

(** X12. What an event does to the script. A signal, the exit of a watcher
    or the rejection of [bundle] makes it exit, with code 0 for a signal,
    the code of the child (0 when it has none) for a watcher and 1 for the
    bundler, after one and the same teardown and with the state untouched.
    Any other event returns, leaves no job queued, and does nothing but
    write to the console, pass error output on, start the patch command
    when AUTO_PATCH is set, and signal or fork servers. *)
Theorem turn_exits_or_stays (h : host) (e : event) (st : state) :
  let r := turn h e st in
  match exit_of e with
  | Some c =>
      exit_code r = Some c
      /\ final r = st
      /\ lifecycle (trace r) = teardown (server st) ++ [ProcessExit c]
  | None =>
      exit_code r = None
      /\ jobs (final r) = 0
      /\ forallb (watch_effect h) (trace r) = true
  end.
Proof.
  cbn zeta. destruct (exit_of e) as [c|] eqn:E.
  - destruct (turn_exits h e st E) as (t & -> & Hl). repeat split. exact Hl.
  - destruct (turn_stays h e st E) as (t & st' & -> & Hc & _ & Hj).
    repeat split; assumption.
Qed.

(** X13. The event loop ends at the first event that makes the script
    exit: after events that all return, such an event gives the exit code,
    and whatever is delivered after it changes nothing. *)
Theorem event_loop_ends_at_exit (h : host) (pre post : list event)
    (e : event) (c : Z) (st : state) :
  forallb stays pre = true ->
  exit_of e = Some c ->
  event_loop h (pre ++ e :: post) st = event_loop h (pre ++ [e]) st
  /\ exit_code (event_loop h (pre ++ e :: post) st) = Some c.
Proof.
  intros Hpre He.
  destruct (event_loop_stays h pre st Hpre) as (t & st1 & Ep & _).
  destruct (turn_exits h e st1 He) as (t' & Et & _).
  assert (E : forall tail, event_loop h (pre ++ e :: tail) st
                           = (t ++ t', Exit c st1)).
  { intros tail. unfold event_loop. rewrite for_each_app.
    fold (event_loop h pre). rewrite (bind_Ret _ Ep). cbn [for_each].
    rewrite (bind_Exit _ Et). reflexivity. }
  rewrite (E post), (E []). split; reflexivity.
Qed.

Lemma event_loop_ends_at_exit_witness :
  exit_code (event_loop linux_host
               ([vscode_stdout (lit "x"); buildEnd] ++ tsc_exit (Some 2%Z)
                :: [SIGINT; tsc_stdout (lit "y")])
               (watching linux_host)) = Some 2%Z.
Proof.
  exact (proj2 (@event_loop_ends_at_exit linux_host
                  [vscode_stdout (lit "x"); buildEnd]
                  [SIGINT; tsc_stdout (lit "y")] (tsc_exit (Some 2%Z)) 2%Z
                  (watching linux_host) eq_refl eq_refl)).
Defined.

Lemma census_patches (h : host) (t : list effect) :
  truthy_opt (env_AUTO_PATCH h) = false ->
  forallb (watch_effect h) t = true -> patches t = 0.
Proof.
  intros Ha. induction t as [|e t IH]; intros H; [reflexivity|].
  cbn [forallb] in H. apply andb_true_iff in H. destruct H as [He H].
  unfold patches in *. cbn [filter].
  destruct e; cbn [is_patch]; try (apply IH, H).
  cbn [watch_effect] in He. rewrite Ha in He. discriminate He.
Qed.

(** X14. As long as no event makes the script exit, the event loop does not
    exit and never does anything but write to the console, pass error
    output on, start the patch command, and signal or fork servers: it
    never signals a watcher and never spawns one. Without AUTO_PATCH it
    never starts the patch command. *)
Theorem event_loop_census (h : host) (events : list event) (st : state) :
  forallb stays events = true ->
  let r := event_loop h events st in
  exit_code r = None
  /\ forallb (watch_effect h) (trace r) = true
  /\ (if truthy_opt (env_AUTO_PATCH h) then True else patches (trace r) = 0).
Proof.
  intros H. cbn zeta.
  destruct (event_loop_stays h events st H) as (t & st' & -> & Hc).
  split; [reflexivity|]. split; [exact Hc|].
  destruct (truthy_opt (env_AUTO_PATCH h)) eqn:Ha; [exact I|].
  apply (census_patches h _ Ha Hc).
Qed.

Lemma event_loop_census_witness :
  patches (trace (event_loop alpine_host
     [vscode_stdout (lit "Starting watch-client" ++ newline ::
                     lit "Finished compilation" ++ [newline]);
      bundle_fulfilled;
      tsc_stdout (lit "Watching for file changes." ++ [newline])]
     (watching alpine_host))) = 0.
Proof.
  exact (proj2 (proj2 (@event_loop_census alpine_host
     [vscode_stdout (lit "Starting watch-client" ++ newline ::
                     lit "Finished compilation" ++ [newline]);
      bundle_fulfilled;
      tsc_stdout (lit "Watching for file changes." ++ [newline])]
     (watching alpine_host) eq_refl))).
Defined.

(** X15. The exit of a server is only logged: no server is forked in its
    place and the variable [server] keeps the process, so the next restart
    still sends its signal to the server that was held, exited or not. *)
Theorem server_exit_only_logged (h : host) (st : state) (p : pid) :
  jobs st = 0 ->
  let r := turn h (server_exit p) st in
  trace r = [ConsoleLog [lit "[server] process " ++ of_nat p ++ lit " exited"]]
  /\ exit_code r = None
  /\ server (final r) = server st
  /\ ~ In p (live (final r))
  /\ trace (restartServer (final r))
     = kill_old (server st)
       ++ [Fork (next_pid st);
           ConsoleLog [lit "[server] spawned process " ++ of_nat (next_pid st)]].
Proof.
  intros Hj. cbn zeta. unfold turn. cbn [callback].
  assert (E : (emit (ConsoleLog [lit "[server] process " ++ of_nat p
                                 ++ lit " exited"]) ;;
               modify (fun st0 => set_live
                 (filter (fun q => negb (Nat.eqb q p)) (live st0)) st0)) st
              = ([ConsoleLog [lit "[server] process " ++ of_nat p
                              ++ lit " exited"]],
                 Ret tt (set_live (filter (fun q => negb (Nat.eqb q p))
                                          (live st)) st)))
    by reflexivity.
  rewrite (bind_Ret _ E), run_jobs_idle by exact Hj.
  unfold trace, exit_code, final. cbn [fst snd app].
  rewrite restartServer_eq. cbn [fst]. repeat split.
  simpl. intros Hin. apply filter_In in Hin. destruct Hin as [_ Hin].
  rewrite Nat.eqb_refl in Hin. discriminate Hin.
Qed.

Lemma server_exit_only_logged_witness :
  let st := final (turn linux_host (tsc_stdout
                     (lit "Watching for file changes." ++ [newline]))
                   (final (turn linux_host bundle_fulfilled
                             (watching linux_host)))) in
  server (final (turn linux_host (server_exit 0) st)) = Some 0
  /\ live (final (turn linux_host (server_exit 0) st)) = [].
Proof.
  cbn zeta. split.
  - exact (proj1 (proj2 (proj2 (@server_exit_only_logged linux_host
      (final (turn linux_host (tsc_stdout
                (lit "Watching for file changes." ++ [newline]))
              (final (turn linux_host bundle_fulfilled
                        (watching linux_host))))) 0 eq_refl)))).
  - vm_compute. reflexivity.
Defined.

(** X16. A build of the bundler that ends or fails, error output of a
    watcher and the end of the patch command are not fatal: the callback
    writes at most one line, the state is what it was, and no process is
    started, signalled or left. *)
Theorem only_logs_changes_nothing (h : host) (e : event) (st : state) :
  only_logs e = true ->
  jobs st = 0 ->
  let r := turn h e st in
  final r = st
  /\ exit_code r = None
  /\ lifecycle (trace r) = []
  /\ children (trace r) = []
  /\ List.length (trace r) <= 1.
Proof.
  intros He Hj. cbn zeta.
  assert (Es : set_jobs 0 st = st).
  { destruct st. cbn [jobs] in Hj. subst. reflexivity. }
  assert (Hr : forall t, callback h e st = (t, Ret tt st) ->
               turn h e st = (t, Ret tt st)).
  { intros t Ec. unfold turn. rewrite (bind_Ret _ Ec).
    rewrite run_jobs_idle by exact Hj. cbn [fst snd].
    rewrite app_nil_r, Es. reflexivity. }
  destruct e as [ | |code|code| | | |error|d|d|d|d|p|error stderr];
    try discriminate He.
  - rewrite (Hr _ eq_refl). repeat split. cbn. lia.
  - rewrite (Hr _ eq_refl). repeat split. cbn. lia.
  - rewrite (Hr _ eq_refl). repeat split. cbn. lia.
  - rewrite (Hr _ eq_refl). repeat split. cbn. lia.
  - destruct error as [message|].
    + rewrite (Hr _ eq_refl). repeat split. cbn. lia.
    + destruct (truthy stderr) eqn:E.
      * erewrite Hr by (cbn [callback]; cbv [when]; rewrite E; reflexivity).
        repeat split. cbn. lia.
      * erewrite Hr by (cbn [callback]; cbv [when]; rewrite E; reflexivity).
        repeat split. cbn. lia.
Qed.

Lemma only_logs_changes_nothing_witness :
  final (turn linux_host (buildError (lit "SyntaxError")) (watching linux_host))
  = watching linux_host.
Proof.
  exact (proj1 (@only_logs_changes_nothing linux_host
                  (buildError (lit "SyntaxError")) (watching linux_host)
                  eq_refl eq_refl)).
Defined.

(** X17. Whatever the events, the event loop leaves the cached target and
    the task as they were, and [startingVscode], once true, stays true. *)
Theorem event_loop_keeps_builder (h : host) (events : list event) (st : state) :
  let st' := final (event_loop h events st) in
  _target st' = _target st
  /\ currentTask st' = currentTask st
  /\ implb (startingVscode st) (startingVscode st') = true.
Proof. exact (event_loop_keeps h events st). Qed.

(* ================================================================== *)
(** ** [package], [task] and the constructor *)

Section FlowsFacts.

Variable h : host.
Variable rootPath : str.
Variable path_join : str -> str -> str.
Variable fails : op -> option str.

Lemma dids_app (t1 t2 : list step) : dids (t1 ++ t2) = dids t1 ++ dids t2.
Proof.
  induction t1 as [|s t1 IH]; [reflexivity|].
  destruct s; cbn [app dids]; rewrite IH; reflexivity.
Qed.

Lemma effs_app (t1 t2 : list step) : effs (t1 ++ t2) = effs t1 ++ effs t2.
Proof.
  induction t1 as [|s t1 IH]; [reflexivity|].
  destruct s; cbn [app effs]; rewrite IH; reflexivity.
Qed.

Lemma dids_Eff (t : list effect) : dids (map Eff t) = [].
Proof. induction t as [|e t IH]; [reflexivity | exact IH]. Qed.

Lemma effs_Eff (t : list effect) : effs (map Eff t) = t.
Proof.
  induction t as [|e t IH]; [reflexivity|]. cbn [map effs]. rewrite IH.
  reflexivity.
Qed.

Lemma package_spec (binaryName : str) (st : state) :
  let t := resolved_target h st in
  let ops := package_ops rootPath path_join binaryName t in
  let archivePath :=
    path_join (path_join rootPath (lit "release")) binaryName in
  let r := package h rootPath path_join fails binaryName st in
  dids (fst r) = fst (until_failure fails ops)
  /\ match snd (until_failure fails ops) with
     | Some message =>
         (exists st', snd r = Throw message st')
         /\ (effs (fst r) = [] \/ effs (fst r) = probe_trace h st)
     | None =>
         snd r = Ret tt (target_state h st)
         /\ effs (fst r)
            = probe_trace h st
              ++ log_trace (target_state h st)
                   (lit "archive: " ++ archivePath
                    ++ match t with
                       | darwin => lit ".zip"
                       | _ => lit ".tar.gz"
                       end)
     end.
Proof.
  cbn zeta. unfold package, package_ops.
  cbv [bindP await until_failure].
  repeat match goal with
         | |- context [fails (fs_remove ?p)] =>
             destruct (fails (fs_remove p)) eqn:?
         | |- context [fails (fs_mkdirp ?p)] =>
             destruct (fails (fs_mkdirp p)) eqn:?
         | |- context [fails (fs_copyFile ?a ?b)] =>
             destruct (fails (fs_copyFile a b)) eqn:?
         end;
    cbn [fst snd app dids effs];
    try (split; [reflexivity|split; [eexists; reflexivity|left; reflexivity]]).
  cbv [lift]. rewrite target_eq. cbv beta iota zeta.
  destruct (resolved_target h st); cbv beta iota zeta;
    match goal with
    | |- context [fails (exec_in ?c ?d)] => destruct (fails (exec_in c d))
    end;
    rewrite ?log_eq; cbv beta iota zeta; cbn [fst snd app dids effs];
    rewrite ?dids_app, ?effs_app, ?dids_Eff, ?effs_Eff;
    cbn [dids effs app]; rewrite ?effs_Eff, ?app_nil_r;
    (split; [reflexivity|]);
    first [ split; [reflexivity | reflexivity]
          | split; [eexists; reflexivity | right; reflexivity] ].
Qed.

End FlowsFacts.

(** X18. [package] does its operations in one fixed order: it removes and
    recreates the archive directory, copies the binary, the readme, the
    license and the notices into it, then runs the archive command in the
    release directory, zip on Darwin and tar elsewhere. It stops at the
    first operation that fails, throws the error of that operation and logs
    no archive; when none fails it returns after logging the archive, .zip
    on Darwin and .tar.gz elsewhere. *)
Theorem package_stops_at_first_failure (h : host) (rootPath : str)
    (path_join : str -> str -> str) (fails : op -> option str)
    (binaryName : str) (st : state) :
  let t := resolved_target h st in
  let ops := package_ops rootPath path_join binaryName t in
  let archivePath :=
    path_join (path_join rootPath (lit "release")) binaryName in
  let r := package h rootPath path_join fails binaryName st in
  dids (fst r) = fst (until_failure fails ops)
  /\ match snd (until_failure fails ops) with
     | Some message =>
         (exists st', snd r = Throw message st')
         /\ (effs (fst r) = [] \/ effs (fst r) = probe_trace h st)
     | None =>
         snd r = Ret tt (target_state h st)
         /\ effs (fst r)
            = probe_trace h st
              ++ log_trace (target_state h st)
                   (lit "archive: " ++ archivePath
                    ++ match t with
                       | darwin => lit ".zip"
                       | _ => lit ".tar.gz"
                       end)
     end.
Proof. exact (package_spec h rootPath path_join fails binaryName st). Qed.

Example package_without_license :
  let r := package darwin_host (lit "/src") join_slash no_license (lit "cs")
                   new_Builder in
  dids (fst r)
  = [fs_remove (lit "/src/release/cs");
     fs_mkdirp (lit "/src/release/cs");
     fs_copyFile (lit "/src/binaries/cs") (lit "/src/release/cs/code-server");
     fs_copyFile (lit "/src/README.md") (lit "/src/release/cs/README.md");
     fs_copyFile (lit "/src/lib/vscode/LICENSE.txt")
                 (lit "/src/release/cs/LICENSE.txt")]
  /\ snd r = Throw (lit "ENOENT: no such file") new_Builder.
Proof. vm_compute. split; reflexivity. Qed.

Example package_on_darwin :
  let r := package darwin_host (lit "/src") join_slash all_fine (lit "cs")
                   new_Builder in
  last (dids (fst r)) (fs_remove [])
  = exec_in (lit "zip -r " ++ quoted (lit "cs.zip") ++ lit " "
             ++ quoted (lit "cs")) (lit "/src/release").
Proof. vm_compute. reflexivity. Qed.

(** X19. [task] writes its label first and hides nothing of what [fn]
    does: when [fn] returns, [task] writes the time taken and returns the
    same value; when [fn] throws, [task] writes "failed" and throws the
    same error; when [fn] leaves the process nothing more is written. The
    state is the one [fn] left. *)
Theorem task_outcome {T : Type} (time now : Z) (message : str) (fn : P T)
    (st : state) :
  let label :=
    Eff (Stdout (lit "[" ++ or_else (currentTask st) (lit "default")
                 ++ lit "] " ++ message ++ lit "...")) in
  task time now message fn st
  = match fn st with
    | (t, Ret v st') =>
        (label :: t ++ [Eff (Stdout (lit "took " ++ of_Z (now - time)
                                     ++ lit "ms" ++ [newline]))],
         Ret v st')
    | (t, Throw error st') =>
        (label :: t ++ [Eff (Stdout (lit "failed" ++ [newline]))],
         Throw error st')
    | (t, Exit c st') => (label :: t, Exit c st')
    end.
Proof.
  cbn zeta. unfold task.
  cbv [bindP catchP lift retP log bind gets emit when throw ret negb].
  cbn [map app].
  destruct (fn st) as [t [v st'|error st'|c st']]; cbn [app];
    rewrite ?app_nil_r; reflexivity.
Qed.

(** X20. The constructor of [Builder]. With an empty root path it throws
    before anything else. Otherwise, with VERSION set and not empty, the
    version is VERSION and package.json is not read, so an unreadable
    package.json does no harm; with VERSION unset or empty the version is
    the one of package.json, the error of reading it is thrown as it is,
    and a missing or empty version field makes the constructor throw
    "codeServerVersion is missing". *)
Theorem Builder_constructor_version (rootPath : str)
    (env_VERSION : option str) (package_json : required) (st : state) :
  let r := Builder_constructor rootPath env_VERSION package_json st in
  let root_line :=
    log_trace st (lit "rootPath" ++ lit " is " ++ quoted rootPath) in
  let version_line (v : str) :=
    log_trace st (lit "codeServerVersion" ++ lit " is " ++ quoted v) in
  r = if negb (truthy rootPath) then
        ([], Throw (lit "rootPath" ++ lit " is missing") st)
      else if truthy_opt env_VERSION then
        (root_line ++ version_line (or_else env_VERSION []),
         Ret (or_else env_VERSION []) st)
      else
        match package_json with
        | RequireError message => (root_line, Throw message st)
        | Required version =>
            if truthy_opt version then
              (root_line ++ version_line (or_else version []),
               Ret (or_else version []) st)
            else
              (root_line,
               Throw (lit "codeServerVersion" ++ lit " is missing") st)
        end.
Proof.
  cbn zeta. unfold Builder_constructor.
  destruct (truthy rootPath) eqn:Er; cbn [negb].
  - rewrite (bind_Ret _ (ensureArgument_eq (lit "rootPath") _ st Er)).
    cbn [fst snd].
    assert (Hv : forall v : option str,
      ensureArgument (lit "codeServerVersion") v st
      = if truthy_opt v then
          (log_trace st (lit "codeServerVersion" ++ lit " is "
                         ++ quoted (or_else v [])),
           Ret (or_else v []) st)
        else ([], Throw (lit "codeServerVersion" ++ lit " is missing") st)).
    { intros v. destruct (truthy_opt v) eqn:Ev.
      - destruct v as [v|]; [|discriminate Ev]. cbn [truthy_opt] in Ev.
        rewrite (ensureArgument_eq _ _ st Ev). cbv [or_else]. rewrite Ev.
        reflexivity.
      - cbv [ensureArgument throw]. rewrite Ev. reflexivity. }
    destruct (truthy_opt env_VERSION) eqn:Ev.
    + rewrite (bind_Ret _ (eq_refl : ret env_VERSION st
                                     = ([], Ret env_VERSION st))).
      rewrite Hv, Ev. reflexivity.
    + destruct package_json as [version|message].
      * rewrite (bind_Ret _ (eq_refl : ret version st
                                       = ([], Ret version st))).
        rewrite Hv. destruct (truthy_opt version); cbn [fst snd app];
          rewrite ?app_nil_r; reflexivity.
      * rewrite (bind_Throw _ (eq_refl : throw message st
                                         = ([], Throw message st))).
        cbn [fst snd]. rewrite app_nil_r. reflexivity.
  - cbv [ensureArgument bind truthy_opt throw]. rewrite Er. reflexivity.
Qed.

(* ================================================================== *)
(** ** The teardown happens once *)

Section Once.

Variable h : host.

(** A sequence of events either never makes the script exit, or has a first
    event that does. *)
Lemma first_exit (events : list event) :
  forallb stays events = true
  \/ exists pre e post c,
       events = pre ++ e :: post
       /\ forallb stays pre = true /\ exit_of e = Some c.
Proof.
  induction events as [|e events IH]; [left; reflexivity|].
  destruct (exit_of e) as [c|] eqn:E.
  - right. exists [], e, events, c. repeat split. exact E.
  - destruct IH as [IH|(pre & e' & post & c & -> & Hpre & He)].
    + left. cbn [forallb]. unfold stays at 1. rewrite E, IH. reflexivity.
    + right. exists (e :: pre), e', post, c. repeat split; [|exact He].
      cbn [forallb]. unfold stays at 1. rewrite E, Hpre. reflexivity.
Qed.

Lemma census_filter (q : effect -> bool) (t : list effect) :
  (forall e, q e = true -> watch_effect h e = false) ->
  forallb (watch_effect h) t = true -> filter q t = [].
Proof.
  intros Hq. induction t as [|e t IH]; intros H; [reflexivity|].
  cbn [forallb] in H. apply andb_true_iff in H. destruct H as [He H].
  cbn [filter]. destruct (q e) eqn:E; [|apply IH, H].
  rewrite (Hq e E) in He. discriminate He.
Qed.

Lemma filter_lifecycle (q : effect -> bool) (t : list effect) :
  (forall e, q e = true -> is_lifecycle e = true) ->
  filter q t = filter q (lifecycle t).
Proof.
  intros Hq. unfold lifecycle. induction t as [|e t IH]; [reflexivity|].
  cbn [filter]. destruct (q e) eqn:E.
  - rewrite (Hq e E). cbn [filter]. rewrite E, IH. reflexivity.
  - destruct (is_lifecycle e); [cbn [filter]; rewrite E|]; exact IH.
Qed.

(** What only [cleanup] does is done at most once in a run. *)
Lemma once_per_run (q : effect -> bool) (events : list event) (st : state) :
  (forall e, q e = true -> watch_effect h e = false) ->
  (forall e, q e = true -> is_lifecycle e = true) ->
  (forall s c, List.length (filter q (teardown s ++ [ProcessExit c])) <= 1) ->
  List.length (filter q (trace (event_loop h events st))) <= 1.
Proof.
  intros Hw Hl Ht.
  destruct (first_exit events) as [H|(pre & e & post & c & -> & Hpre & He)].
  - destruct (event_loop_stays h events st H) as (t & st' & -> & Hc).
    unfold trace. cbn [fst]. rewrite (census_filter q t Hw Hc). cbn. lia.
  - destruct (event_loop_stays h pre st Hpre) as (t & st1 & Ep & Hc).
    destruct (turn_exits h e st1 He) as (t' & Et & Hlt).
    assert (E : event_loop h (pre ++ e :: post) st = (t ++ t', Exit c st1)).
    { unfold event_loop. rewrite for_each_app.
      fold (event_loop h pre). rewrite (bind_Ret _ Ep). cbn [for_each].
      rewrite (bind_Exit _ Et). reflexivity. }
    rewrite E. unfold trace. cbn [fst].
    rewrite filter_app, (census_filter q t Hw Hc). cbn [app].
    rewrite (filter_lifecycle q t' Hl), Hlt. apply Ht.
Qed.

End Once.

(** C6. The teardown is done once: whatever events are delivered, and in
    whatever state, a run leaves the process at most once and signals each
    watcher at most once; and a signal followed by any further events,
    repeated signals among them, does exactly what the signal alone does,
    the later deliveries having no effect. The guard is process.exit at the
    end of [cleanup]: no callback runs after it. *)
Theorem cleanup_once_per_run (h : host) (events : list event) (st : state) :
  let t := trace (event_loop h events st) in
  List.length (filter is_process_exit t) <= 1
  /\ List.length (filter is_kill_of_vscode t) <= 1
  /\ List.length (filter is_kill_of_tsc t) <= 1
  /\ event_loop h (SIGINT :: events) st = turn h SIGINT st
  /\ event_loop h (SIGTERM :: events) st = turn h SIGTERM st
  /\ event_loop h (SIGINT :: SIGINT :: events) st = turn h SIGINT st.
Proof.
  cbn zeta.
  assert (Hs : forall e later, exit_of e = Some 0%Z ->
                 event_loop h (e :: later) st = turn h e st).
  { intros e later He. destruct (turn_exits h e st He) as (t & Et & _).
    unfold event_loop. cbn [for_each]. rewrite (bind_Exit _ Et).
    symmetry. exact Et. }
  split; [|split; [|split; [|split; [|split]]]].
  - apply once_per_run.
    + intros e H. destruct e; try discriminate H; reflexivity.
    + intros e H. destruct e; try discriminate H; reflexivity.
    + intros s c. destruct s; cbn; lia.
  - apply once_per_run.
    + intros e H. destruct e as [| | | | | | | |p| | | | |];
        try discriminate H. destruct p; try discriminate H; reflexivity.
    + intros e H. destruct e; try discriminate H; reflexivity.
    + intros s c. destruct s; cbn; lia.
  - apply once_per_run.
    + intros e H. destruct e as [| | | | | | | |p| | | | |];
        try discriminate H. destruct p; try discriminate H; reflexivity.
    + intros e H. destruct e; try discriminate H; reflexivity.
    + intros s c. destruct s; cbn; lia.
  - apply Hs. reflexivity.
  - apply Hs. reflexivity.
  - apply Hs. reflexivity.
Qed.

(** C10, the claim as the specification states it, fails: once the first
    bundle is fulfilled, a line of tsc with the marker that arrives while a
    rebuild of the bundler is under way restarts the server at once. *)
Lemma restart_waits_for_any_build_fails : ~ restart_waits_for_any_build.
Proof.
  intros H.
  specialize (H linux_host [delivers bundle_fulfilled; rebuild_starts]
                (lit "Watching for file changes." ++ [newline]) eq_refl).
  vm_compute in H. discriminate H.
Qed.
